(** * SET / RESET of session variables (pkg/sql/set_var.go)

    A shallow embedding of the statement compiler [SetVar], the executor
    [startExec], the scoping rule [applyOnSessionDataMutators], the
    time-zone and timeout converters and the timeout setters, followed by
    the properties of the specification that are settled on them.

    Go pointers to session data are modelled by explicit state passing; a
    Go [error] result is an [option error] ([None] is [nil]); a run-time
    panic (calling a nil function value, taking the top of an empty stack)
    is the [None] of an outer [option]. *)

From Stdlib Require Import ZArith List String Ascii Bool Lia SpecFloat.
From stdpp Require Import base option list strings gmap.

Local Open Scope string_scope.
Local Open Scope list_scope.
Local Open Scope Z_scope.

(** ** Machine integers and durations *)

Definition MinInt64 : Z := - 2 ^ 63.
Definition MaxInt64 : Z := 2 ^ 63 - 1.

(** Two's complement wrap-around of Go's [int64] arithmetic. *)
Definition int64 (z : Z) : Z := (z + 2 ^ 63) mod 2 ^ 64 - 2 ^ 63.

Definition inInt64 (z : Z) : bool := (MinInt64 <=? z) && (z <=? MaxInt64).

(** [time.Duration] is an [int64] count of nanoseconds. *)
Definition Nanosecond : Z := 1.
Definition Millisecond : Z := 1000000.
Definition Second : Z := 1000000000.
Definition Hour : Z := 3600 * Second.

(** ** Arbitrary-precision decimals *)

Inductive Form := Finite | Infinite | NaN.

(** [apd.Decimal]: the value is (-1)^Negative * Coeff * 10^Exponent. *)
Record Decimal := {
  DForm : Form;
  Negative : bool;
  Exponent : Z;
  Coeff : Z
}.

(** ** Errors *)

Inductive pgcode :=
| Syntax
| InvalidParameterValue
| CantChangeRuntimeParam
| UndefinedObject.

(** An error keeps its format string and arguments apart, as
    [pgerror.Newf], [errors.WithDetailf] and [errors.WithHintf] receive
    them. [Foreign] is an error raised by a collaborator. *)
Inductive error :=
| Newf (code : pgcode) (format : string) (args : list fmtArg)
| WithDetailf (err : error) (format : string) (args : list fmtArg)
| WithHintf (err : error) (format : string) (args : list fmtArg)
| Foreign (msg : string)
with fmtArg :=
| ArgString (s : string)
| ArgError (e : error)
| ArgDecimal (d : Decimal).

(** A Go result pair [(value, error)]. *)
Inductive result (A : Type) :=
| Ok (a : A)
| Err (e : error).
Arguments Ok {A} a.
Arguments Err {A} e.

Definition newSingleArgVarError (varName : string) : error :=
  Newf InvalidParameterValue "SET %s takes only one argument"
       [ArgString varName].

Definition wrapSetVarError (varName actualValue : string)
    (fmt : string) (args : list fmtArg) : error :=
  let err := Newf InvalidParameterValue
                  "invalid value for parameter %q: %q"
                  [ArgString varName; ArgString actualValue] in
  WithDetailf err fmt args.

Definition newVarValueError (varName actualVal : string)
    (allowedVals : list string) : error :=
  let err := Newf InvalidParameterValue
                  "invalid value for parameter %q: %q"
                  [ArgString varName; ArgString actualVal] in
  if (0 <? Z.of_nat (length allowedVals))
  then WithHintf err "Available values: %s"
                 [ArgString (String.concat "," allowedVals)]
  else err.

Definition newCannotChangeParameterError (varName : string) : error :=
  Newf CantChangeRuntimeParam "parameter %q cannot be changed"
       [ArgString varName].

(** The parameter an error names, and the text of its detail. *)
Definition namesParameter (e : error) (varName : string) : Prop :=
  match e with
  | WithDetailf (Newf InvalidParameterValue _ (ArgString v :: _)) _ _ =>
      v = varName
  | Newf _ _ (ArgString v :: _) => v = varName
  | _ => False
  end.



(** ** Intervals *)

(** [duration.Duration]: months, days and a sub-day count of nanoseconds. *)
Record Duration := {
  Months : Z;
  Days : Z;
  nanos : Z
}.

Definition nanosInDay : Z := 24 * Hour.
Definition nanosInMonth : Z := 30 * nanosInDay.

Definition ErrEncodeOverflow : error :=
  Foreign "overflow during Encode".

(** Modelled from the spec: [Duration.Encode] (pkg/util/duration, not
    under src/). "Its signed sub-day/day/month component is encoded to a
    signed duration"; the encoding fails when that total does not fit the
    64-bit result. The results are the total in nanoseconds, the months and
    the days. *)
Definition Encode (d : Duration) : result (Z * Z * Z) :=
  let total := Months d * nanosInMonth + Days d * nanosInDay + nanos d in
  if inInt64 total then Ok (total, Months d, Days d)
  else Err ErrEncodeOverflow.

Definition intervalToDuration (interval : Duration) : result Z :=
  match Encode interval with
  | Err err => Err err
  | Ok (nanos, _, _) => Ok nanos
  end.

(** ** Decimal arithmetic used by the time-zone converter *)

(** [apd.New(coeff, exponent)]. *)
Definition apdNew (coeff exponent : Z) : Decimal :=
  {| DForm := Finite; Negative := coeff <? 0;
     Exponent := exponent; Coeff := Z.abs coeff |}.

Definition decimalIsZero (d : Decimal) : bool :=
  match DForm d with Finite => Coeff d =? 0 | _ => false end.

(** Modelled from the spec: multiplication in the exact decimal context
    [tree.ExactCtx] (the apd library, not under src/): "exact (non-lossy)
    decimal multiplication". The coefficients multiply, the exponents add,
    nothing is rounded; the product of an infinity and zero is an invalid
    operation. The exponent limits of the context are not modelled. *)
Definition ExactCtx_Mul (x y : Decimal) : Decimal * option error :=
  let neg := xorb (Negative x) (Negative y) in
  match DForm x, DForm y with
  | NaN, _ | _, NaN =>
      ({| DForm := NaN; Negative := false; Exponent := 0; Coeff := 0 |},
       None)
  | Finite, Finite =>
      ({| DForm := Finite; Negative := neg;
          Exponent := Exponent x + Exponent y;
          Coeff := Coeff x * Coeff y |}, None)
  | _, _ =>
      if decimalIsZero x || decimalIsZero y
      then ({| DForm := NaN; Negative := false; Exponent := 0; Coeff := 0 |},
            Some (Foreign "invalid operation"))
      else ({| DForm := Infinite; Negative := neg;
               Exponent := 0; Coeff := 0 |}, None)
  end.

(** Modelled from the spec: [Decimal.Int64] (apd, not under src/): the
    value as a 64-bit integer, an error when it is not finite, has a
    fractional part ("inexact truncation") or is out of range
    ("overflow"). *)
Definition Decimal_Int64 (d : Decimal) : result Z :=
  match DForm d with
  | Finite =>
      let '(integ, frac) :=
        if 0 <=? Exponent d
        then (Coeff d * 10 ^ Exponent d, 0)
        else (Z.quot (Coeff d) (10 ^ (- Exponent d)),
              Z.rem (Coeff d) (10 ^ (- Exponent d))) in
      if negb (frac =? 0) then Err (Foreign "has fractional part")
      else
        let v := if Negative d then - integ else integ in
        if MaxInt64 <? v then Err (Foreign "greater than max int64")
        else if v <? MinInt64 then Err (Foreign "less than min int64")
        else Ok v
  | _ => Err (Foreign "is not finite")
  end.

(** [apd.ErrDecimal]: a context that remembers the first error and turns
    every later operation into a no-op. Only the [Err] field is kept. *)
Record ErrDecimal := { EDErr : option error }.

Definition MakeErrDecimal : ErrDecimal := {| EDErr := None |}.

(** [ed.Mul(d, x, y)] returns the new contents of the destination [d]. *)
Definition ErrDecimal_Mul (ed : ErrDecimal) (d x y : Decimal)
    : ErrDecimal * Decimal :=
  match EDErr ed with
  | Some _ => (ed, d)
  | None => let '(r, err) := ExactCtx_Mul x y in ({| EDErr := err |}, r)
  end.

Definition ErrDecimal_Int64 (ed : ErrDecimal) (d : Decimal)
    : ErrDecimal * Z :=
  match EDErr ed with
  | Some _ => (ed, 0)
  | None =>
      match Decimal_Int64 d with
      | Ok v => ({| EDErr := None |}, v)
      | Err err => ({| EDErr := Some err |}, 0)
      end
  end.

(** ** Floating point *)

(** A [float64] is an IEEE 754 binary64 value. *)
Definition float64 := spec_float.
Definition float64_mul : float64 -> float64 -> float64 := SFmul 53 1024.
Definition float64_of_Z (z : Z) : float64 := binary_normalize 53 1024 z 0 false.

(** The conversion [int64(f)] truncates toward zero. Go leaves the result
    open when the value is not representable; [indefinite] is what the
    platform yields then. *)
Definition float64_to_int64 (indefinite : Z) (f : float64) : Z :=
  match f with
  | S754_zero _ => 0
  | S754_finite s m e =>
      let mag := if 0 <=? e then Zpos m * 2 ^ e
                 else Z.quot (Zpos m) (2 ^ (- e)) in
      let v := if s then - mag else mag in
      if inInt64 v then v else indefinite
  | _ => indefinite
  end.

(** ** Evaluated values *)

Inductive datum :=
| DString (s : string)
| DInterval (d : Duration)
| DInt (i : Z)
| DFloat (f : float64)
| DDecimal (d : Decimal)
| DBool (b : bool)
| DOidWrapper (Wrapped : datum) (Oid : Z).

(** [tree.UnwrapDatum] strips the wrapper that gives a value a custom type
    identifier. *)
Definition UnwrapDatum (d : datum) : datum :=
  match d with
  | DOidWrapper w _ => w
  | _ => d
  end.

(** ** Time zones *)

(** A resolved zone: one of the name database, or a fixed offset in seconds
    labelled with the text it was made from. *)
Inductive Location :=
| NamedZone (name : string)
| FixedOffsetZone (offset : Z) (origRepr : string).

(** Modelled from the spec: [timeutil.FixedOffsetTimeZoneToLocation] (not
    under src/): "synthesize a fixed-offset pseudo-zone from the computed
    integer-seconds offset, labeled with the original value's textual
    form". *)
Definition FixedOffsetTimeZoneToLocation (offset : Z) (origRepr : string)
    : Location :=
  FixedOffsetZone offset origRepr.

Definition zoneOffset (loc : Location) : option Z :=
  match loc with
  | FixedOffsetZone offset _ => Some offset
  | NamedZone _ => None
  end.

(** ** Session state *)

Inductive IntervalStyle :=
| IntervalStyle_POSTGRES
| IntervalStyle_ISO_8601
| IntervalStyle_SQL_STANDARD.

Inductive IntervalDurationType :=
| IntervalDurationType_UNSET
| IntervalDurationType_YEAR
| IntervalDurationType_MONTH
| IntervalDurationType_DAY
| IntervalDurationType_HOUR
| IntervalDurationType_MINUTE
| IntervalDurationType_SECOND
| IntervalDurationType_MILLISECOND.

Record IntervalDurationField := {
  DurationType : IntervalDurationType;
  FromDurationType : IntervalDurationType
}.

Record IntervalTypeMetadata := {
  DurationField : IntervalDurationField;
  Precision : Z;
  PrecisionIsSet : bool
}.

(** The fields of the session data that the setters of this file write. *)
Record SessionData := {
  SDIntervalStyle : IntervalStyle;
  SDLocation : Location;
  StmtTimeout : Z;
  LockTimeout : Z;
  IdleInSessionTimeout : Z;
  IdleInTransactionSessionTimeout : Z
}.

(** A mutator wraps the session data of one scope level. *)
Record sessionDataMutator := { data : SessionData }.

Definition GetIntervalStyle (sd : SessionData) : IntervalStyle :=
  SDIntervalStyle sd.

Definition SetLocation (m : sessionDataMutator) (loc : Location)
    : sessionDataMutator :=
  let d := data m in
  {| data := {| SDIntervalStyle := SDIntervalStyle d;
                SDLocation := loc;
                StmtTimeout := StmtTimeout d;
                LockTimeout := LockTimeout d;
                IdleInSessionTimeout := IdleInSessionTimeout d;
                IdleInTransactionSessionTimeout :=
                  IdleInTransactionSessionTimeout d |} |}.

Definition SetStmtTimeout (m : sessionDataMutator) (timeout : Z)
    : sessionDataMutator :=
  let d := data m in
  {| data := {| SDIntervalStyle := SDIntervalStyle d;
                SDLocation := SDLocation d;
                StmtTimeout := timeout;
                LockTimeout := LockTimeout d;
                IdleInSessionTimeout := IdleInSessionTimeout d;
                IdleInTransactionSessionTimeout :=
                  IdleInTransactionSessionTimeout d |} |}.

Definition SetLockTimeout (m : sessionDataMutator) (timeout : Z)
    : sessionDataMutator :=
  let d := data m in
  {| data := {| SDIntervalStyle := SDIntervalStyle d;
                SDLocation := SDLocation d;
                StmtTimeout := StmtTimeout d;
                LockTimeout := timeout;
                IdleInSessionTimeout := IdleInSessionTimeout d;
                IdleInTransactionSessionTimeout :=
                  IdleInTransactionSessionTimeout d |} |}.

Definition SetIdleInSessionTimeout (m : sessionDataMutator) (timeout : Z)
    : sessionDataMutator :=
  let d := data m in
  {| data := {| SDIntervalStyle := SDIntervalStyle d;
                SDLocation := SDLocation d;
                StmtTimeout := StmtTimeout d;
                LockTimeout := LockTimeout d;
                IdleInSessionTimeout := timeout;
                IdleInTransactionSessionTimeout :=
                  IdleInTransactionSessionTimeout d |} |}.

Definition SetIdleInTransactionSessionTimeout (m : sessionDataMutator)
    (timeout : Z) : sessionDataMutator :=
  let d := data m in
  {| data := {| SDIntervalStyle := SDIntervalStyle d;
                SDLocation := SDLocation d;
                StmtTimeout := StmtTimeout d;
                LockTimeout := LockTimeout d;
                IdleInSessionTimeout := IdleInSessionTimeout d;
                IdleInTransactionSessionTimeout := timeout |} |}.

(** Cluster settings, read by the global-default providers. *)
Definition settingsValues : Type := list (string * string).

Record sessionDataMutatorBase := {
  defaults : gmap string string;
  settings : settingsValues
}.

(** The MutatorSet: the session data of every scope level, the base of the
    session first and the topmost level last. *)
Record sessionDataMutatorIterator := {
  mutatorBase : sessionDataMutatorBase;
  sds : list SessionData
}.

Record notice := {
  severity : string;
  noticeFormat : string;
  noticeArgs : list fmtArg
}.

Definition NewWithSeverityf (sev fmt : string) (args : list fmtArg)
    : notice :=
  {| severity := sev; noticeFormat := fmt; noticeArgs := args |}.

Record EvalContext := { TxnImplicit : bool }.

(** The planner: the evaluation context, the MutatorSet, the buffer of
    client notices and the telemetry counters that were incremented. *)
Record planner := {
  evalCtx : EvalContext;
  mutatorIterator : sessionDataMutatorIterator;
  notices : list notice;
  telemetryCounters : list string
}.

Definition BufferClientNotice (p : planner) (n : notice) : planner :=
  {| evalCtx := evalCtx p;
     mutatorIterator := mutatorIterator p;
     notices := notices p ++ [n];
     telemetryCounters := telemetryCounters p |}.

Definition telemetryInc (p : planner) (counter : string) : planner :=
  {| evalCtx := evalCtx p;
     mutatorIterator := mutatorIterator p;
     notices := notices p;
     telemetryCounters := telemetryCounters p ++ [counter] |}.

Definition withMutatorIterator (p : planner)
    (it : sessionDataMutatorIterator) : planner :=
  {| evalCtx := evalCtx p;
     mutatorIterator := it;
     notices := notices p;
     telemetryCounters := telemetryCounters p |}.

Definition withSds (it : sessionDataMutatorIterator)
    (elems : list SessionData) : sessionDataMutatorIterator :=
  {| mutatorBase := mutatorBase it; sds := elems |}.

(** ** Expressions *)

(** A parsed value expression of a SET statement. *)
Inductive Expr :=
| DefaultVal
| UnresolvedName (parts : string)
| StrVal (s : string)
| OtherExpr (text : string).

(** [tree.TypedExpr]: an interface, given by its methods. *)
Record TypedExpr := {
  Eval : EvalContext -> result datum;
  ExprString : string
}.

(** ** The registry entry of a parameter *)

(** The generic setter receives a mutator; the runtime and the planner
    setters receive the whole execution state. [Set_] is the field [Set]. *)
Record sessionVar := {
  GetStringVal : option (EvalContext -> list TypedExpr -> result string);
  Set_ : option (sessionDataMutator -> string
                 -> sessionDataMutator * option error);
  RuntimeSet : option (planner -> bool -> string -> planner * option error);
  SetWithPlanner :
    option (planner -> bool -> string -> planner * option error);
  GlobalDefault : option (settingsValues -> string)
}.

(** [tree.SetVar], the parsed statement. *)
Record SetVarStmt := {
  Name : string;
  Local_ : bool;
  Values : list Expr
}.

(** [typedValues = None] is the nil slice: the statement is RESET. *)
Record setVarNode := {
  name : string;
  local : bool;
  v : sessionVar;
  typedValues : option (list TypedExpr)
}.

(** The strategy calls an execution makes, in order. *)
Inductive call :=
| CallRuntimeSet (isLocal : bool) (s : string)
| CallSetWithPlanner (isLocal : bool) (s : string)
| CallSet (s : string).

(** ** Collaborators

    The capabilities that the surrounding engine supplies and whose code is
    not part of this file. *)
Class Collaborators := {
  (** [strings.ToLower] *)
  ToLower : string -> string;
  (** the registry lookup [getSessionVar(name, missingOk)] *)
  getSessionVar : string -> bool -> bool * sessionVar * option error;
  (** the names of [DummyVars] *)
  DummyVars : gset string;
  DummySessionVarValueCounter : string -> string;
  (** [paramparse.UnresolvedNameToStrVal] *)
  UnresolvedNameToStrVal : Expr -> Expr;
  (** [planner.analyzeExpr] with the desired type [types.String] *)
  analyzeExpr : planner -> Expr -> string -> result TypedExpr;
  (** [Expr.String] and [Datum.String] *)
  exprString : Expr -> string;
  datumString : datum -> string;
  (** [paramparse.DatumAsString] *)
  DatumAsString : EvalContext -> string -> TypedExpr -> result string;
  (** [timeutil.TimeZoneStringToLocation] with the ISO 8601 standard *)
  TimeZoneStringToLocation : string -> result Location;
  (** [time.Location.String] *)
  locationString : Location -> string;
  (** [time.Duration.String] *)
  durationString : Z -> string;
  (** [tree.ParseDIntervalWithTypeMetadata] *)
  ParseDIntervalWithTypeMetadata :
    IntervalStyle -> string -> IntervalTypeMetadata -> result Duration;
  (** what [int64(f)] yields for a float it cannot represent *)
  float64Indefinite : Z
}.

Section SetVar.
Context `{Collaborators}.

(** An evaluated value used as an expression evaluates to itself. *)
Definition datumExpr (d : datum) : TypedExpr :=
  {| Eval := fun _ => Ok d; ExprString := datumString d |}.

(** ** The statement compiler *)

(** The type-checking loop of [SetVar]. *)
Fixpoint analyzeValues (p : planner) (name : string) (exprs : list Expr)
    : result (list TypedExpr) :=
  match exprs with
  | [] => Ok []
  | expr :: rest =>
      let expr := UnresolvedNameToStrVal expr in
      match analyzeExpr p expr ("SET SESSION " +:+ name) with
      | Err err =>
          Err (wrapSetVarError name (exprString expr) "%v" [ArgError err])
      | Ok typedValue =>
          match analyzeValues p name rest with
          | Err err => Err err
          | Ok typed => Ok (typedValue :: typed)
          end
      end
  end.

Definition SetVar (p : planner) (n : SetVarStmt) : result setVarNode :=
  if String.eqb (Name n) ""
  then Err (Newf Syntax "invalid variable name: %q" [ArgString (Name n)])
  else
    let name := ToLower (Name n) in
    let '(_, v, err) := getSessionVar name false in
    match err with
    | Some err => Err err
    | None =>
        let isReset :=
          match Values n with
          | [DefaultVal] => true
          | _ => false
          end in
        let typed : result (option (list TypedExpr)) :=
          if (0 <? Z.of_nat (length (Values n))) && negb isReset
          then match analyzeValues p name (Values n) with
               | Err err => Err err
               | Ok typed => Ok (Some typed)
               end
          else Ok None in
        match typed with
        | Err err => Err err
        | Ok typedValues =>
            match Set_ v, RuntimeSet v, SetWithPlanner v with
            | None, None, None => Err (newCannotChangeParameterError name)
            | _, _, _ =>
                match typedValues,
                      defaults (mutatorBase (mutatorIterator p)) !! name,
                      GlobalDefault v with
                | None, None, None =>
                    Err (newCannotChangeParameterError name)
                | _, _, _ =>
                    Ok {| name := name; local := Local_ n; v := v;
                          typedValues := typedValues |}
                end
            end
        end
    end.

(** ** Default resolution *)

Definition getSessionVarDefaultString (varName : string) (v : sessionVar)
    (m : sessionDataMutatorBase) : bool * string :=
  match defaults m !! varName with
  | Some defVal => (true, defVal)
  | None =>
      match GlobalDefault v with
      | Some globalDefault => (true, globalDefault (settings m))
      | None => (false, "")
      end
  end.

(** ** The MutatorSet *)

(** What one application to a mutator yields: the mutator afterwards, the
    error, and the strategy calls made; [None] when it panics. *)
Definition applyFuncT : Type :=
  sessionDataMutator
  -> option (sessionDataMutator * option error * list call).

Fixpoint applyOnEachElem (applyFunc : applyFuncT)
    (elems : list SessionData)
    : option (list SessionData * option error * list call) :=
  match elems with
  | [] => Some ([], None, [])
  | sd :: rest =>
      match applyFunc {| data := sd |} with
      | None => None
      | Some (m, Some err, calls) => Some (data m :: rest, Some err, calls)
      | Some (m, None, calls) =>
          match applyOnEachElem applyFunc rest with
          | None => None
          | Some (rest', err, calls') =>
              Some (data m :: rest', err, calls ++ calls')
          end
      end
  end.

(** Modelled from the spec: [applyOnEachMutatorError] of the MutatorSet
    (not under src/): "apply to all, collecting the first error", "first
    error wins, short-circuits". *)
Definition applyOnEachMutatorError (it : sessionDataMutatorIterator)
    (applyFunc : applyFuncT)
    : option (sessionDataMutatorIterator * option error * list call) :=
  match applyOnEachElem applyFunc (sds it) with
  | None => None
  | Some (elems, err, calls) => Some (withSds it elems, err, calls)
  end.

(** Modelled from the spec: [applyOnTopMutator] of the MutatorSet (not
    under src/): "apply to topmost". An empty set has no top. *)
Definition applyOnTopMutator (it : sessionDataMutatorIterator)
    (applyFunc : applyFuncT)
    : option (sessionDataMutatorIterator * option error * list call) :=
  match last (sds it) with
  | None => None
  | Some top =>
      match applyFunc {| data := top |} with
      | None => None
      | Some (m, err, calls) =>
          Some (withSds it (<[pred (length (sds it)) := data m]> (sds it)),
                err, calls)
      end
  end.

Definition applyOnSessionDataMutators (p : planner) (local : bool)
    (applyFunc : applyFuncT) : option (planner * option error * list call) :=
  if local then
    if TxnImplicit (evalCtx p) then
      Some (BufferClientNotice p
              (NewWithSeverityf "WARNING"
                 "SET LOCAL can only be used in transaction blocks" []),
            None, [])
    else
      match applyOnTopMutator (mutatorIterator p) applyFunc with
      | None => None
      | Some (it, err, calls) => Some (withMutatorIterator p it, err, calls)
      end
  else
    match applyOnEachMutatorError (mutatorIterator p) applyFunc with
    | None => None
    | Some (it, err, calls) => Some (withMutatorIterator p it, err, calls)
    end.

(** ** Execution *)

Definition getStringVal (evalCtx : EvalContext) (name : string)
    (values : list TypedExpr) : result string :=
  match values with
  | [value] => DatumAsString evalCtx name value
  | _ => Err (newSingleArgVarError name)
  end.

(** The evaluation loop of [startExec]: every value is replaced in place
    by what it evaluates to, up to the first failure. *)
Fixpoint evalValues (ctx : EvalContext) (values : list TypedExpr)
    : list TypedExpr * option error :=
  match values with
  | [] => ([], None)
  | value :: rest =>
      match Eval value ctx with
      | Err err => (value :: rest, Some err)
      | Ok d =>
          let '(rest', err) := evalValues ctx rest in
          (datumExpr d :: rest', err)
      end
  end.

(** The function literal that [startExec] passes to the MutatorSet. *)
Definition setterClosure (n : setVarNode) (strVal : string) : applyFuncT :=
  fun m =>
    match Set_ (v n) with
    | None => None
    | Some set =>
        let '(m', err) := set m strVal in Some (m', err, [CallSet strVal])
    end.

Definition withTypedValues (n : setVarNode)
    (values : option (list TypedExpr)) : setVarNode :=
  {| name := name n; local := local n; v := v n; typedValues := values |}.

(** The warning of a deprecated parameter (the head of [startExec]). *)
Definition noteDummyVar (n : setVarNode) (p : planner) : planner :=
  if decide (name n ∈ DummyVars) then
    BufferClientNotice
      (telemetryInc p (DummySessionVarValueCounter (name n)))
      (NewWithSeverityf "WARNING" "setting session var %q is a no-op"
         [ArgString (name n)])
  else p.

(** The value of the statement (the middle of [startExec]): the node after
    the evaluation, and the string or the error. *)
Definition resolveValue (n : setVarNode) (p : planner)
    : setVarNode * result string :=
  match typedValues n with
  | Some values =>
      let '(values', err) := evalValues (evalCtx p) values in
      let n' := withTypedValues n (Some values') in
      match err with
      | Some err => (n', Err err)
      | None =>
          (n', match GetStringVal (v n) with
               | Some getStringVal' => getStringVal' (evalCtx p) values'
               | None => getStringVal (evalCtx p) (name n) values'
               end)
      end
  | None =>
      (n, Ok (snd (getSessionVarDefaultString (name n) (v n)
                     (mutatorBase (mutatorIterator p)))))
  end.

(** The strategy dispatch (the tail of [startExec]). *)
Definition dispatchSetter (n : setVarNode) (p : planner) (strVal : string)
    : option (planner * option error * list call) :=
  match RuntimeSet (v n) with
  | Some runtimeSet =>
      let '(p', err) := runtimeSet p (local n) strVal in
      Some (p', err, [CallRuntimeSet (local n) strVal])
  | None =>
      match SetWithPlanner (v n) with
      | Some setWithPlanner =>
          let '(p', err) := setWithPlanner p (local n) strVal in
          Some (p', err, [CallSetWithPlanner (local n) strVal])
      | None =>
          applyOnSessionDataMutators p (local n) (setterClosure n strVal)
      end
  end.

(** [startExec] yields the node and the planner afterwards, the error of
    the statement and the strategy calls it made. *)
Definition startExec (n : setVarNode) (p : planner)
    : option (setVarNode * planner * option error * list call) :=
  let p := noteDummyVar n p in
  match resolveValue n p with
  | (n', Err err) => Some (n', p, Some err, [])
  | (n', Ok strVal) =>
      match dispatchSetter n' p strVal with
      | None => None
      | Some (p', err, calls) => Some (n', p', err, calls)
      end
  end.

(** ** The time-zone converter *)

(** What the type switch of [timeZoneVarGetStringVal] leaves in [loc] and
    in [offset]. *)
Definition timeZoneSwitch (value : TypedExpr) (d : datum)
    : result (option Location * Z) :=
  match UnwrapDatum d with
  | DString location =>
      match TimeZoneStringToLocation location with
      | Err err =>
          Err (wrapSetVarError "timezone" (ExprString value)
                 "cannot find time zone %q: %v"
                 [ArgString location; ArgError err])
      | Ok loc => Ok (Some loc, 0)
      end
  | DInterval dur =>
      match Encode dur with
      | Err err =>
          Err (wrapSetVarError "timezone" (ExprString value) "%v"
                 [ArgError err])
      | Ok (offset, _, _) => Ok (None, Z.quot offset Second)
      end
  | DInt i => Ok (None, int64 (int64 (i * 60) * 60))
  | DFloat f =>
      Ok (None,
          float64_to_int64 float64Indefinite
            (float64_mul (float64_mul f (float64_of_Z 60))
               (float64_of_Z 60)))
  | DDecimal dec =>
      let sixty := apdNew 60 0 in
      let ed := MakeErrDecimal in
      let '(ed, sixty) := ErrDecimal_Mul ed sixty sixty sixty in
      let '(ed, sixty) := ErrDecimal_Mul ed sixty sixty dec in
      let '(ed, offset) := ErrDecimal_Int64 ed sixty in
      match EDErr ed with
      | Some _ =>
          Err (wrapSetVarError "timezone" (ExprString value)
                 "time zone value %s would overflow an int64"
                 [ArgDecimal sixty])
      | None => Ok (None, offset)
      end
  | _ => Err (newVarValueError "timezone" (ExprString value) [])
  end.

(** The location the converter resolves; [int(offset)] is the identity on
    a 64-bit platform. *)
Definition timeZoneVarLocation (evalCtx : EvalContext)
    (values : list TypedExpr) : result Location :=
  match values with
  | [value] =>
      match Eval value evalCtx with
      | Err err => Err err
      | Ok d =>
          match timeZoneSwitch value d with
          | Err err => Err err
          | Ok (Some loc, _) => Ok loc
          | Ok (None, offset) =>
              Ok (FixedOffsetTimeZoneToLocation offset (datumString d))
          end
      end
  | _ => Err (newSingleArgVarError "timezone")
  end.

Definition timeZoneVarGetStringVal (evalCtx : EvalContext)
    (values : list TypedExpr) : result string :=
  match timeZoneVarLocation evalCtx values with
  | Err err => Err err
  | Ok loc => Ok (locationString loc)
  end.

Definition timeZoneVarSet (m : sessionDataMutator) (s : string)
    : sessionDataMutator * option error :=
  match TimeZoneStringToLocation s with
  | Err err => (m, Some (wrapSetVarError "TimeZone" s "%v" [ArgError err]))
  | Ok loc => (SetLocation m loc, None)
  end.

(** ** The timeout converters and setters *)

Definition makeTimeoutVarGetter (varName : string) (evalCtx : EvalContext)
    (values : list TypedExpr) : result string :=
  match values with
  | [value] =>
      match Eval value evalCtx with
      | Err err => Err err
      | Ok d =>
          match UnwrapDatum d with
          | DString s => Ok s
          | DInterval interval =>
              match intervalToDuration interval with
              | Err err =>
                  Err (wrapSetVarError varName (ExprString value) "%v"
                         [ArgError err])
              | Ok timeout => Ok (durationString timeout)
              end
          | DInt i => Ok (durationString (int64 (i * Millisecond)))
          | _ => Ok (durationString 0)
          end
      end
  | _ => Err (newSingleArgVarError varName)
  end.

Definition millisecondMetadata : IntervalTypeMetadata :=
  {| DurationField :=
       {| DurationType := IntervalDurationType_MILLISECOND;
          FromDurationType := IntervalDurationType_UNSET |};
     Precision := 0;
     PrecisionIsSet := false |}.

Definition validateTimeoutVar (style : IntervalStyle)
    (timeString varName : string) : result Z :=
  match ParseDIntervalWithTypeMetadata style timeString
          millisecondMetadata with
  | Err err => Err (wrapSetVarError varName timeString "%v" [ArgError err])
  | Ok interval =>
      match intervalToDuration interval with
      | Err err =>
          Err (wrapSetVarError varName timeString "%v" [ArgError err])
      | Ok timeout =>
          if timeout <? 0
          then Err (wrapSetVarError varName timeString
                      "%v cannot have a negative duration"
                      [ArgString varName])
          else Ok timeout
      end
  end.

Definition stmtTimeoutVarSet (m : sessionDataMutator) (s : string)
    : sessionDataMutator * option error :=
  match validateTimeoutVar (GetIntervalStyle (data m)) s
          "statement_timeout" with
  | Err err => (m, Some err)
  | Ok timeout => (SetStmtTimeout m timeout, None)
  end.

Definition lockTimeoutVarSet (m : sessionDataMutator) (s : string)
    : sessionDataMutator * option error :=
  match validateTimeoutVar (GetIntervalStyle (data m)) s
          "lock_timeout" with
  | Err err => (m, Some err)
  | Ok timeout => (SetLockTimeout m timeout, None)
  end.

Definition idleInSessionTimeoutVarSet (m : sessionDataMutator) (s : string)
    : sessionDataMutator * option error :=
  match validateTimeoutVar (GetIntervalStyle (data m)) s
          "idle_in_session_timeout" with
  | Err err => (m, Some err)
  | Ok timeout => (SetIdleInSessionTimeout m timeout, None)
  end.

Definition idleInTransactionSessionTimeoutVarSet (m : sessionDataMutator)
    (s : string) : sessionDataMutator * option error :=
  match validateTimeoutVar (GetIntervalStyle (data m)) s
          "idle_in_transaction_session_timeout" with
  | Err err => (m, Some err)
  | Ok timeout => (SetIdleInTransactionSessionTimeout m timeout, None)
  end.

(** The four timeout parameters: name, setter, and the field it stores. *)
Inductive timeoutVar :=
| StatementTimeout
| LockTimeoutVar
| IdleInSessionTimeoutVar
| IdleInTransactionSessionTimeoutVar.

Definition timeoutVarName (t : timeoutVar) : string :=
  match t with
  | StatementTimeout => "statement_timeout"
  | LockTimeoutVar => "lock_timeout"
  | IdleInSessionTimeoutVar => "idle_in_session_timeout"
  | IdleInTransactionSessionTimeoutVar =>
      "idle_in_transaction_session_timeout"
  end.

Definition timeoutVarSet (t : timeoutVar)
    : sessionDataMutator -> string -> sessionDataMutator * option error :=
  match t with
  | StatementTimeout => stmtTimeoutVarSet
  | LockTimeoutVar => lockTimeoutVarSet
  | IdleInSessionTimeoutVar => idleInSessionTimeoutVarSet
  | IdleInTransactionSessionTimeoutVar =>
      idleInTransactionSessionTimeoutVarSet
  end.

Definition timeoutVarStored (t : timeoutVar) (sd : SessionData) : Z :=
  match t with
  | StatementTimeout => StmtTimeout sd
  | LockTimeoutVar => LockTimeout sd
  | IdleInSessionTimeoutVar => IdleInSessionTimeout sd
  | IdleInTransactionSessionTimeoutVar => IdleInTransactionSessionTimeout sd
  end.

End SetVar.

(** ** Vocabulary of the properties *)

(** What a generic setter does to the session data of one level. *)
Definition applySet
    (set : sessionDataMutator -> string -> sessionDataMutator * option error)
    (strVal : string) (sd : SessionData) : SessionData :=
  data (fst (set {| data := sd |} strVal)).

Definition setErr
    (set : sessionDataMutator -> string -> sessionDataMutator * option error)
    (strVal : string) (sd : SessionData) : option error :=
  snd (set {| data := sd |} strVal).





Definition noSetter (v : sessionVar) : Prop :=
  Set_ v = None /\ RuntimeSet v = None /\ SetWithPlanner v = None.

(** The statement is RESET: no value, or the single value DEFAULT. *)
Definition isResetStmt (n : SetVarStmt) : bool :=
  match Values n with
  | [] | [DefaultVal] => true
  | _ => false
  end.

Definition noDefault (p : planner) (name : string) (v : sessionVar) : Prop :=
  defaults (mutatorBase (mutatorIterator p)) !! name = None
  /\ GlobalDefault v = None.

(** The total that [Encode] forms. *)
Definition totalNanos (d : Duration) : Z :=
  Months d * nanosInMonth + Days d * nanosInDay + nanos d.

Definition signedCoeff (dec : Decimal) : Z :=
  if Negative dec then - Coeff dec else Coeff dec.

(** The decimal [dec], read as hours, is exactly [n] seconds:
    3600 * coeff * 10^exponent = n, with the powers of ten moved to the
    side where the exponent is not negative. *)
Definition decimalHoursAreSeconds (dec : Decimal) (n : Z) : Prop :=
  DForm dec = Finite
  /\ 3600 * signedCoeff dec * 10 ^ Z.max 0 (Exponent dec)
     = n * 10 ^ Z.max 0 (- Exponent dec).

(** The integer a finite decimal denotes, if it denotes one. *)
Definition decimalIsInteger (d : Decimal) (n : Z) : Prop :=
  signedCoeff d * 10 ^ Z.max 0 (Exponent d)
  = n * 10 ^ Z.max 0 (- Exponent d).

(** The decimal [dec] of hours multiplied by 3600, exactly. *)
Definition scaledToSeconds (dec : Decimal) : Decimal :=
  {| DForm := Finite; Negative := Negative dec;
     Exponent := Exponent dec; Coeff := 3600 * Coeff dec |}.

(** An interval of whole hours, and one of a count of nanoseconds. *)
Definition hours (h : Z) : Duration :=
  {| Months := 0; Days := 0; nanos := h * Hour |}.

Definition subDay (n : Z) : Duration :=
  {| Months := 0; Days := 0; nanos := n |}.

(** The two warnings of this file. *)
Definition setLocalWarning : notice :=
  NewWithSeverityf "WARNING"
    "SET LOCAL can only be used in transaction blocks" [].

Definition dummyVarWarning (name : string) : notice :=
  NewWithSeverityf "WARNING" "setting session var %q is a no-op"
    [ArgString name].

(** The number of notices an execution added to the buffer. *)
Definition noticesEmitted (before after : planner) : nat :=
  (length (notices after) - length (notices before))%nat.

(** ** Fixtures: a small engine to run the definitions on *)

Module Fixture.

Definition asciiToLower (c : ascii) : ascii :=
  let n := nat_of_ascii c in
  if ((65 <=? n) && (n <=? 90))%nat then ascii_of_nat (n + 32) else c.

Fixpoint toLower (s : string) : string :=
  match s with
  | EmptyString => EmptyString
  | String c rest => String (asciiToLower c) (toLower rest)
  end.

Definition digitChar (d : Z) : ascii := ascii_of_N (Z.to_N (48 + d)).

Fixpoint showDigits (fuel : nat) (z : Z) (acc : string) : string :=
  match fuel with
  | O => acc
  | S fuel' =>
      let acc' := String (digitChar (z mod 10)) acc in
      if z / 10 =? 0 then acc' else showDigits fuel' (z / 10) acc'
  end.

Definition showZ (z : Z) : string :=
  if z <? 0 then "-" +:+ showDigits 20 (- z) "" else showDigits 20 z "".

(** A rendering of durations in whole seconds, milliseconds or
    nanoseconds. *)
Definition showDuration (d : Z) : string :=
  if d mod Second =? 0 then showZ (d / Second) +:+ "s"
  else if d mod Millisecond =? 0 then showZ (d / Millisecond) +:+ "ms"
  else showZ d +:+ "ns".

Fixpoint readDigits (s : string) (acc : Z) (seen : bool)
    : option (Z * string) :=
  match s with
  | EmptyString => if seen then Some (acc, EmptyString) else None
  | String c rest =>
      let n := Z.of_N (N_of_ascii c) in
      if (48 <=? n) && (n <=? 57)
      then readDigits rest (acc * 10 + (n - 48)) true
      else if seen then Some (acc, s) else None
  end.

(** An interval parser for signed whole numbers with the units s, ms and
    ns; a bare number takes the unit of the field hint. *)
Definition parseInterval (style : IntervalStyle) (s : string)
    (itm : IntervalTypeMetadata) : result Duration :=
  let '(neg, body) :=
    match s with
    | String "-"%char rest => (true, rest)
    | _ => (false, s)
    end in
  match readDigits body 0 false with
  | None => Err (Foreign "could not parse interval")
  | Some (n, unit) =>
      let scale :=
        if String.eqb unit "s" then Some Second
        else if String.eqb unit "ms" then Some Millisecond
        else if String.eqb unit "ns" then Some Nanosecond
        else if String.eqb unit "" then
          match DurationType (DurationField itm) with
          | IntervalDurationType_MILLISECOND => Some Millisecond
          | _ => Some Second
          end
        else None in
      match scale with
      | None => Err (Foreign "could not parse interval")
      | Some k =>
          Ok {| Months := 0; Days := 0;
                nanos := (if neg then - n else n) * k |}
      end
  end.

Definition showDatum (d : datum) : string :=
  match d with
  | DString s => "'" +:+ s +:+ "'"
  | DInt i => showZ i
  | DBool true => "true"
  | DBool false => "false"
  | DInterval d => showDuration (nanos d)
  | _ => "?"
  end.

Definition showExpr (e : Expr) : string :=
  match e with
  | DefaultVal => "DEFAULT"
  | UnresolvedName s => s
  | StrVal s => "'" +:+ s +:+ "'"
  | OtherExpr text => text
  end.

(** Type checking accepts string literals, whole numbers written as names
    of the form [OtherExpr "42"], and nothing else. *)
Definition analyze (p : planner) (e : Expr) (context : string)
    : result TypedExpr :=
  match e with
  | StrVal s =>
      Ok {| Eval := fun _ => Ok (DString s); ExprString := showExpr e |}
  | OtherExpr text =>
      match readDigits text 0 false with
      | Some (n, EmptyString) =>
          Ok {| Eval := fun _ => Ok (DInt n); ExprString := text |}
      | _ => Err (Foreign "unknown function")
      end
  | _ => Err (Foreign "unsupported expression")
  end.

Definition datumAsString (ctx : EvalContext) (name : string)
    (value : TypedExpr) : result string :=
  match Eval value ctx with
  | Err err => Err err
  | Ok d =>
      match UnwrapDatum d with
      | DString s => Ok s
      | _ => Err (Foreign "requires a string value")
      end
  end.

(** The engine without a registry; the registry below is built on it. *)
Definition engineWith
    (registry : string -> bool -> bool * sessionVar * option error)
    : Collaborators :=
  {| ToLower := toLower;
     getSessionVar := registry;
     DummyVars := {["enable_seqscan"]};
     DummySessionVarValueCounter := fun name => "dummy." +:+ name;
     UnresolvedNameToStrVal :=
       fun e => match e with UnresolvedName s => StrVal s | _ => e end;
     analyzeExpr := analyze;
     exprString := showExpr;
     datumString := showDatum;
     DatumAsString := datumAsString;
     TimeZoneStringToLocation := fun s => Ok (NamedZone s);
     locationString :=
       fun loc => match loc with
                  | NamedZone name => name
                  | FixedOffsetZone offset _ => showZ offset
                  end;
     durationString := showDuration;
     ParseDIntervalWithTypeMetadata := parseInterval;
     float64Indefinite := MinInt64 |}.

Definition noVar : sessionVar :=
  {| GetStringVal := None; Set_ := None; RuntimeSet := None;
     SetWithPlanner := None; GlobalDefault := None |}.

Definition bare : Collaborators :=
  engineWith (fun _ _ => (false, noVar, Some (Foreign "no registry"))).

(** Registry entries. [server_version] is read-only; [enable_seqscan] is
    a deprecated parameter with a generic setter that accepts anything;
    [tracing] has a runtime setter and a generic setter; [database] has a
    planner setter and a generic setter. *)
Definition statementTimeoutVar : sessionVar :=
  {| GetStringVal := Some (makeTimeoutVarGetter (H := bare)
                             "statement_timeout");
     Set_ := Some (stmtTimeoutVarSet (H := bare));
     RuntimeSet := None; SetWithPlanner := None;
     GlobalDefault := Some (fun _ => "0s") |}.

Definition lockTimeoutVar : sessionVar :=
  {| GetStringVal := Some (makeTimeoutVarGetter (H := bare) "lock_timeout");
     Set_ := Some (lockTimeoutVarSet (H := bare));
     RuntimeSet := None; SetWithPlanner := None;
     GlobalDefault := None |}.

Definition serverVersionVar : sessionVar :=
  {| GetStringVal := None; Set_ := None; RuntimeSet := None;
     SetWithPlanner := None; GlobalDefault := Some (fun _ => "13.0.0") |}.

Definition enableSeqscanVar : sessionVar :=
  {| GetStringVal := None;
     Set_ := Some (fun m _ => (m, None));
     RuntimeSet := None; SetWithPlanner := None;
     GlobalDefault := Some (fun _ => "on") |}.

Definition tracingVar : sessionVar :=
  {| GetStringVal := None;
     Set_ := Some (fun m _ => (m, Some (Foreign "unreachable")));
     RuntimeSet := Some (fun p _ _ => (p, None));
     SetWithPlanner := None;
     GlobalDefault := None |}.

Definition databaseVar : sessionVar :=
  {| GetStringVal := None;
     Set_ := Some (fun m _ => (m, Some (Foreign "unreachable")));
     RuntimeSet := None;
     SetWithPlanner := Some (fun p _ _ => (p, None));
     GlobalDefault := None |}.

Definition registry (name : string) (missingOk : bool)
    : bool * sessionVar * option error :=
  if String.eqb name "statement_timeout" then (true, statementTimeoutVar, None)
  else if String.eqb name "lock_timeout" then (true, lockTimeoutVar, None)
  else if String.eqb name "server_version" then (true, serverVersionVar, None)
  else if String.eqb name "enable_seqscan" then (true, enableSeqscanVar, None)
  else if String.eqb name "tracing" then (true, tracingVar, None)
  else if String.eqb name "database" then (true, databaseVar, None)
  else if missingOk then (false, noVar, None)
  else (false, noVar,
        Some (Newf UndefinedObject "unrecognized configuration parameter %q"
                [ArgString name])).

Definition engine : Collaborators := engineWith registry.

(** Session data that differ in their lock timeout, to tell them apart. *)
Definition level (k : Z) : SessionData :=
  {| SDIntervalStyle := IntervalStyle_POSTGRES;
     SDLocation := NamedZone "UTC";
     StmtTimeout := 0;
     LockTimeout := k;
     IdleInSessionTimeout := 0;
     IdleInTransactionSessionTimeout := 0 |}.

Definition session (implicit : bool) (levels : list SessionData) : planner :=
  {| evalCtx := {| TxnImplicit := implicit |};
     mutatorIterator :=
       {| mutatorBase := {| defaults := ∅; settings := [] |};
          sds := levels |};
     notices := [];
     telemetryCounters := [] |}.

(** A setter that stores the length of the value as the statement timeout
    and fails on the level whose lock timeout is 3. *)
Definition failsOnThird (m : sessionDataMutator) (s : string)
    : sessionDataMutator * option error :=
  if LockTimeout (data m) =? 3
  then (m, Some (Foreign "third level refuses"))
  else (SetStmtTimeout m (Z.of_nat (String.length s)), None).

Definition pickyVar : sessionVar :=
  {| GetStringVal := None; Set_ := Some failsOnThird; RuntimeSet := None;
     SetWithPlanner := None; GlobalDefault := None |}.

Definition literal (s : string) : TypedExpr :=
  {| Eval := fun _ => Ok (DString s); ExprString := "'" +:+ s +:+ "'" |}.

Definition failing : TypedExpr :=
  {| Eval := fun _ => Err (Foreign "division by zero");
     ExprString := "1/0" |}.

Definition assign (name : string) (isLocal : bool) (v : sessionVar)
    (values : list TypedExpr) : setVarNode :=
  {| name := name; local := isLocal; v := v; typedValues := Some values |}.


(** SET LOCAL enable_seqscan = 'on', outside a transaction block. *)
Definition setLocalSeqscan : setVarNode :=
  assign "enable_seqscan" true enableSeqscanVar [literal "on"].


(** SET server_version = nosuchfn(): a read-only parameter and a value
    that does not type-check. *)
Definition setServerVersion : SetVarStmt :=
  {| Name := "server_version"; Local_ := false;
     Values := [OtherExpr "nosuchfn()"] |}.

(** Sessions with one scope level, in an explicit and in an implicit
    transaction, and one with two levels in an implicit transaction. *)
Definition oneLevel : planner := session false [level 1].
Definition implicitOneLevel : planner := session true [level 1].
Definition implicitTwoLevels : planner := session true [level 1; level 2].

(** A picky parameter set for the session, on five scope levels. *)
Definition setPicky : setVarNode :=
  assign "picky" false pickyVar [literal "abc"].

Definition fiveLevels : planner :=
  session false [level 1; level 2; level 3; level 4; level 5].

(** The same, LOCAL, in an explicit transaction with two scope levels. *)
Definition setPickyLocal : setVarNode :=
  assign "picky" true pickyVar [literal "abc"].

Definition twoLevels : planner := session false [level 1; level 2].


(** RESET lock_timeout: the parameter has a setter and no default. *)
Definition resetLockTimeout : SetVarStmt :=
  {| Name := "LOCK_TIMEOUT"; Local_ := false; Values := [DefaultVal] |}.

(** 5.5 as a binary64 value. *)
Definition fiveAndAHalf : float64 :=
  S754_finite false (11 * 2 ^ 49) (- 50).

End Fixture.

(** ** The remaining converters and further vocabulary *)

(** [getIntVal]. [DatumAsInt] is [paramparse.DatumAsInt], a capability of
    the surrounding engine like [DatumAsString]; it is passed in. *)
Definition getIntVal
    (DatumAsInt : EvalContext -> string -> TypedExpr -> result Z)
    (evalCtx : EvalContext) (name : string) (values : list TypedExpr)
    : result Z :=
  match values with
  | [value] => DatumAsInt evalCtx name value
  | _ => Err (newSingleArgVarError name)
  end.

(** The code of an error, through the details and hints wrapped around
    it. *)
Fixpoint errorCode (e : error) : option pgcode :=
  match e with
  | Newf code _ _ => Some code
  | WithDetailf err _ _ => errorCode err
  | WithHintf err _ _ => errorCode err
  | Foreign _ => None
  end.

(** The offending text a value error carries, its second argument. *)
Definition offendingText (e : error) : option string :=
  match e with
  | WithDetailf (Newf _ _ [_; ArgString actual]) _ _ => Some actual
  | Newf _ _ [_; ArgString actual] => Some actual
  | _ => None
  end.

(** Two session data agree on everything but the timeout [t]. *)
Definition sameExcept (t : timeoutVar) (a b : SessionData) : Prop :=
  SDIntervalStyle a = SDIntervalStyle b
  /\ SDLocation a = SDLocation b
  /\ forall t', t' <> t -> timeoutVarStored t' a = timeoutVarStored t' b.

(** Two session data agree on everything but the location. *)
Definition sameButLocation (a b : SessionData) : Prop :=
  SDIntervalStyle a = SDIntervalStyle b
  /\ forall t, timeoutVarStored t a = timeoutVarStored t b.

(** The interval with every component negated. *)
Definition negDuration (d : Duration) : Duration :=
  {| Months := - Months d; Days := - Days d; nanos := - nanos d |}.

(** The same decimal value written with one more trailing zero. *)
Definition withTrailingZero (dec : Decimal) : Decimal :=
  {| DForm := DForm dec; Negative := Negative dec;
     Exponent := Exponent dec - 1; Coeff := 10 * Coeff dec |}.

(** Further fixtures. *)
Module Fixture2.

(** SET statement_timeout = '5s', 'x': two values. *)
Definition setTimeoutTwoValues : SetVarStmt :=
  {| Name := "Statement_Timeout"; Local_ := true;
     Values := [StrVal "5s"; StrVal "x"] |}.

(** SET lock_timeout = '5s', nosuchfn(), alsobad(): the second value is the
    first that does not type-check. *)
Definition setSecondIllTyped : SetVarStmt :=
  {| Name := "lock_timeout"; Local_ := false;
     Values := [StrVal "5s"; OtherExpr "nosuchfn()"; OtherExpr "alsobad()"] |}.



(** A parameter without a custom converter, and an assignment of two
    values to it, the second of which fails to evaluate. *)
Definition plainVar : sessionVar :=
  {| GetStringVal := None; Set_ := Some (fun m _ => (m, None));
     RuntimeSet := None; SetWithPlanner := None; GlobalDefault := None |}.

Definition setPlainSecondFails : setVarNode :=
  Fixture.assign "plain" false plainVar
    [Fixture.literal "a"; Fixture.failing; Fixture.literal "c"].

Definition setPlainTwoValues : setVarNode :=
  Fixture.assign "plain" false plainVar
    [Fixture.literal "a"; Fixture.literal "b"].

(** A time-zone lookup that knows UTC only. *)
Definition utcOnly : Collaborators :=
  {| ToLower := Fixture.toLower;
     getSessionVar := Fixture.registry;
     DummyVars := ∅;
     DummySessionVarValueCounter := fun name => name;
     UnresolvedNameToStrVal := fun e => e;
     analyzeExpr := Fixture.analyze;
     exprString := Fixture.showExpr;
     datumString := Fixture.showDatum;
     DatumAsString := Fixture.datumAsString;
     TimeZoneStringToLocation :=
       fun s => if String.eqb s "UTC" then Ok (NamedZone "UTC")
                else Err (Foreign "unknown time zone");
     locationString :=
       fun loc => match loc with
                  | NamedZone name => name
                  | FixedOffsetZone offset _ => Fixture.showZ offset
                  end;
     durationString := Fixture.showDuration;
     ParseDIntervalWithTypeMetadata := Fixture.parseInterval;
     float64Indefinite := MinInt64 |}.

(** The time-zone parameter, and SET timezone = 'Europe/Paris' for the
    session. *)
Definition timeZoneVar : sessionVar :=
  {| GetStringVal := Some (timeZoneVarGetStringVal (H := Fixture.bare));
     Set_ := Some (timeZoneVarSet (H := Fixture.bare));
     RuntimeSet := None; SetWithPlanner := None;
     GlobalDefault := Some (fun _ => "UTC") |}.

Definition setTimeZone : setVarNode :=
  Fixture.assign "timezone" false timeZoneVar
    [Fixture.literal "Europe/Paris"].

End Fixture2.

(** * Properties *)

Section Properties.
Context `{Collaborators}.

(** ** Supporting lemmas *)

Lemma noteDummyVar_iterator (n : setVarNode) (p : planner) :
  mutatorIterator (noteDummyVar n p) = mutatorIterator p.
Proof. unfold noteDummyVar. destruct (decide _); reflexivity. Qed.

Lemma noteDummyVar_evalCtx (n : setVarNode) (p : planner) :
  evalCtx (noteDummyVar n p) = evalCtx p.
Proof. unfold noteDummyVar. destruct (decide _); reflexivity. Qed.

Lemma resolveValue_fields (n n' : setVarNode) (p : planner)
    (r : result string) :
  resolveValue n p = (n', r) ->
  v n' = v n /\ local n' = local n /\ name n' = name n.
Proof.
  unfold resolveValue. destruct (typedValues n) as [values|].
  - destruct (evalValues (evalCtx p) values) as [values' [err|]];
      intros [= <- _]; auto.
  - intros [= <- _]; auto.
Qed.

Lemma setterClosure_node (n n' : setVarNode) (strVal : string) :
  v n' = v n -> setterClosure n' strVal = setterClosure n strVal.
Proof. intros Hv. unfold setterClosure. rewrite Hv. reflexivity. Qed.

Lemma setterClosure_apply (n : setVarNode) (strVal : string) set
    (sd : SessionData) :
  Set_ (v n) = Some set ->
  setterClosure n strVal {| data := sd |}
  = Some ({| data := applySet set strVal sd |}, setErr set strVal sd,
          [CallSet strVal]).
Proof.
  intros Hset. unfold setterClosure, applySet, setErr. rewrite Hset.
  destruct (set {| data := sd |} strVal) as [[d] err]. reflexivity.
Qed.

(** The traversal when every setter call succeeds. *)
Lemma applyOnEachElem_all (n : setVarNode) (strVal : string) set
    (elems : list SessionData) :
  Set_ (v n) = Some set ->
  Forall (fun sd => setErr set strVal sd = None) elems ->
  applyOnEachElem (setterClosure n strVal) elems
  = Some (map (applySet set strVal) elems, None,
          repeat (CallSet strVal) (length elems)).
Proof.
  intros Hset Hall. induction Hall as [|sd rest Hsd _ IH]; [reflexivity|].
  cbn [applyOnEachElem]. rewrite (setterClosure_apply _ _ _ _ Hset).
  rewrite Hsd, IH. reflexivity.
Qed.

(** The traversal up to the first setter call that fails. *)
Lemma applyOnEachElem_first_error (n : setVarNode) (strVal : string) set
    (pre post : list SessionData) (sd : SessionData) (e : error) :
  Set_ (v n) = Some set ->
  Forall (fun sd => setErr set strVal sd = None) pre ->
  setErr set strVal sd = Some e ->
  applyOnEachElem (setterClosure n strVal) (pre ++ sd :: post)
  = Some (map (applySet set strVal) pre ++ applySet set strVal sd :: post,
          Some e, repeat (CallSet strVal) (S (length pre))).
Proof.
  intros Hset Hpre Hsd. induction Hpre as [|x pre Hx _ IH].
  - cbn [app applyOnEachElem]. rewrite (setterClosure_apply _ _ _ _ Hset).
    rewrite Hsd. reflexivity.
  - cbn [app applyOnEachElem]. rewrite (setterClosure_apply _ _ _ _ Hset).
    rewrite Hx, IH. reflexivity.
Qed.

(** On the generic path [startExec] is the scoping rule applied to the
    setter closure. *)
Lemma startExec_generic (n n' : setVarNode) (p : planner)
    (strVal : string) :
  RuntimeSet (v n) = None ->
  SetWithPlanner (v n) = None ->
  resolveValue n (noteDummyVar n p) = (n', Ok strVal) ->
  startExec n p
  = match applyOnSessionDataMutators (noteDummyVar n p) (local n)
            (setterClosure n strVal) with
    | None => None
    | Some (p', err, calls) => Some (n', p', err, calls)
    end.
Proof.
  intros Hr Hp Hres. unfold startExec. rewrite Hres.
  destruct (resolveValue_fields _ _ _ _ Hres) as (Hv & Hl & _).
  unfold dispatchSetter. rewrite Hv, Hl, Hr, Hp.
  rewrite (setterClosure_node n n' strVal Hv). reflexivity.
Qed.

(** ** The claims *)

(** C1. A SET SESSION execution on the generic setter path applies the one
    resolved value to the mutators in order. When the setter first fails on
    some mutator, the traversal stops there: that error is the error of the
    statement, the mutators before it keep the applied value, the mutators
    after it are untouched, and the setter was called once for each mutator
    up to the failing one. When no call fails, every mutator is updated. *)
Theorem C1_set_session_first_error_no_rollback
    (n n' : setVarNode) (p : planner) (strVal : string) set :
  local n = false ->
  RuntimeSet (v n) = None ->
  SetWithPlanner (v n) = None ->
  Set_ (v n) = Some set ->
  resolveValue n (noteDummyVar n p) = (n', Ok strVal) ->
  let p0 := noteDummyVar n p in
  let it := mutatorIterator p in
  (forall pre sd post e,
      sds it = pre ++ sd :: post ->
      Forall (fun x => setErr set strVal x = None) pre ->
      setErr set strVal sd = Some e ->
      startExec n p
      = Some (n',
              withMutatorIterator p0
                (withSds it (map (applySet set strVal) pre
                             ++ applySet set strVal sd :: post)),
              Some e,
              repeat (CallSet strVal) (S (length pre))))
  /\ (Forall (fun x => setErr set strVal x = None) (sds it) ->
      startExec n p
      = Some (n',
              withMutatorIterator p0
                (withSds it (map (applySet set strVal) (sds it))),
              None,
              repeat (CallSet strVal) (length (sds it)))).
Proof.
  intros Hl Hr Hp Hset Hres p0 it.
  rewrite (startExec_generic _ _ _ _ Hr Hp Hres), Hl.
  unfold applyOnSessionDataMutators, applyOnEachMutatorError.
  rewrite noteDummyVar_iterator. fold it. split.
  - intros pre sd post e Hsds Hpre Hsd. rewrite Hsds.
    rewrite (applyOnEachElem_first_error _ _ _ _ _ _ _ Hset Hpre Hsd).
    reflexivity.
  - intros Hall. rewrite (applyOnEachElem_all _ _ _ _ Hset Hall).
    reflexivity.
Qed.

Lemma applyOnTop_snoc (applyFunc : applyFuncT)
    (it : sessionDataMutatorIterator) (rest : list SessionData)
    (top : SessionData) m err calls :
  sds it = rest ++ [top] ->
  applyFunc {| data := top |} = Some (m, err, calls) ->
  applyOnTopMutator it applyFunc
  = Some (withSds it (rest ++ [data m]), err, calls).
Proof.
  intros Hsds Hf. unfold applyOnTopMutator. rewrite Hsds, last_snoc, Hf.
  do 3 f_equal. rewrite length_app. cbn [length].
  replace (pred (length rest + 1)) with (length rest + 0)%nat by lia.
  rewrite insert_app_r. reflexivity.
Qed.

(** C2 (as amended). A SET LOCAL execution on the generic setter path, in
    an implicit transaction, changes no mutator, returns no error, calls no
    setter and appends the SET LOCAL warning to the notices exactly once;
    the notice of a deprecated parameter, if the parameter is one, comes
    before it. In an explicit transaction the setter is applied to the
    topmost mutator only and every other mutator is unchanged. *)
Theorem C2_set_local_scoping
    (n n' : setVarNode) (p : planner) (strVal : string) set :
  local n = true ->
  RuntimeSet (v n) = None ->
  SetWithPlanner (v n) = None ->
  Set_ (v n) = Some set ->
  resolveValue n (noteDummyVar n p) = (n', Ok strVal) ->
  (TxnImplicit (evalCtx p) = true ->
   exists p',
     startExec n p = Some (n', p', None, [])
     /\ mutatorIterator p' = mutatorIterator p
     /\ notices p'
        = notices p
          ++ (if decide (name n ∈ DummyVars)
              then [dummyVarWarning (name n)] else [])
          ++ [setLocalWarning])
  /\ (TxnImplicit (evalCtx p) = false ->
      forall rest top,
        sds (mutatorIterator p) = rest ++ [top] ->
        startExec n p
        = Some (n',
                withMutatorIterator (noteDummyVar n p)
                  (withSds (mutatorIterator p)
                     (rest ++ [applySet set strVal top])),
                setErr set strVal top,
                [CallSet strVal])).
Proof.
  intros Hl Hr Hp Hset Hres.
  rewrite (startExec_generic _ _ _ _ Hr Hp Hres), Hl.
  unfold applyOnSessionDataMutators.
  rewrite noteDummyVar_evalCtx, noteDummyVar_iterator. split.
  - intros ->. eexists. split; [reflexivity|]. split.
    + cbn. apply noteDummyVar_iterator.
    + cbn. unfold noteDummyVar. destruct (decide _); cbn.
      * rewrite <- app_assoc. reflexivity.
      * reflexivity.
  - intros -> rest top Hsds.
    rewrite (applyOnTop_snoc _ _ rest top _ _ _ Hsds
               (setterClosure_apply _ _ _ _ Hset)).
    reflexivity.
Qed.






(** An execution of a plan that has a setter, on a session with at least
    one scope level, always returns. *)
Lemma startExec_returns (n : setVarNode) (p : planner) :
  ~ noSetter (v n) ->
  sds (mutatorIterator p) <> [] ->
  exists r, startExec n p = Some r.
Proof.
  intros Hsetter Hsds. unfold startExec.
  destruct (resolveValue n (noteDummyVar n p)) as [n0 [strVal|e]] eqn:Hres;
    [|eexists; reflexivity].
  destruct (resolveValue_fields _ _ _ _ Hres) as (Hv & Hl & _).
  unfold dispatchSetter. rewrite Hv.
  destruct (RuntimeSet (v n)) as [runtimeSet|] eqn:Hr.
  { destruct (runtimeSet _ _ _). eexists; reflexivity. }
  destruct (SetWithPlanner (v n)) as [setWithPlanner|] eqn:Hp.
  { destruct (setWithPlanner _ _ _). eexists; reflexivity. }
  destruct (Set_ (v n)) as [set|] eqn:Hset.
  2:{ exfalso. apply Hsetter. repeat split; assumption. }
  rewrite (setterClosure_node n n0 strVal Hv).
  unfold applyOnSessionDataMutators.
  rewrite noteDummyVar_iterator.
  destruct (local n0).
  - destruct (TxnImplicit _); [eexists; reflexivity|].
    destruct (exists_last Hsds) as (rest & top & Hlast).
    rewrite (applyOnTop_snoc _ _ rest top _ _ _ Hlast
               (setterClosure_apply _ _ _ _ Hset)).
    eexists; reflexivity.
  - unfold applyOnEachMutatorError.
    assert (Hex : exists r,
               applyOnEachElem (setterClosure n strVal)
                 (sds (mutatorIterator p)) = Some r).
    { generalize (sds (mutatorIterator p)). intros elems.
      induction elems as [|sd rest IH]; [eexists; reflexivity|].
      cbn [applyOnEachElem].
      rewrite (setterClosure_apply _ _ _ _ Hset).
      destruct (setErr set strVal sd); [eexists; reflexivity|].
      destruct IH as ([[rest' err'] calls'] & ->). eexists; reflexivity. }
    destruct Hex as ([[elems' err'] calls'] & ->). eexists; reflexivity.
Qed.

(** Once the name is accepted and found and the values are type-checked,
    [SetVar] is its two checks for a parameter that cannot be changed. *)
Lemma SetVar_checked (p : planner) (n : SetVarStmt) (found : bool)
    (vdesc : sessionVar) (typed : option (list TypedExpr)) :
  Name n <> "" ->
  getSessionVar (ToLower (Name n)) false = (found, vdesc, None) ->
  (if isResetStmt n then typed = None
   else exists tvs, analyzeValues p (ToLower (Name n)) (Values n) = Ok tvs
                    /\ typed = Some tvs) ->
  SetVar p n
  = match Set_ vdesc, RuntimeSet vdesc, SetWithPlanner vdesc with
    | None, None, None =>
        Err (newCannotChangeParameterError (ToLower (Name n)))
    | _, _, _ =>
        match typed,
              defaults (mutatorBase (mutatorIterator p)) !! ToLower (Name n),
              GlobalDefault vdesc with
        | None, None, None =>
            Err (newCannotChangeParameterError (ToLower (Name n)))
        | _, _, _ =>
            Ok {| name := ToLower (Name n); local := Local_ n; v := vdesc;
                  typedValues := typed |}
        end
    end.
Proof.
  intros Hname Hlookup Htyped. unfold SetVar.
  apply String.eqb_neq in Hname. rewrite Hname, Hlookup.
  unfold isResetStmt in Htyped.
  destruct (Values n) as [|e rest].
  - subst typed. reflexivity.
  - destruct e, rest; cbn [length Z.of_nat andb negb Z.ltb] in *;
      try (subst typed; reflexivity);
      destruct Htyped as (tvs & -> & ->); reflexivity.
Qed.

(** C4 (as amended). For a request whose name is not empty and is found in
    the registry and whose values, if it is an assignment, type-check:
    [SetVar] fails with the error "parameter cannot be changed" exactly
    when the descriptor has none of the three setters, or the request is
    RESET and there is neither a session default nor a global default for
    the parameter; no plan is produced then. *)
Theorem C4_cannot_change_parameter (p : planner) (n : SetVarStmt)
    (found : bool) (vdesc : sessionVar) :
  Name n <> "" ->
  getSessionVar (ToLower (Name n)) false = (found, vdesc, None) ->
  (isResetStmt n = false ->
   exists tvs, analyzeValues p (ToLower (Name n)) (Values n) = Ok tvs) ->
  let immutable :=
    noSetter vdesc
    \/ (isResetStmt n = true /\ noDefault p (ToLower (Name n)) vdesc) in
  (SetVar p n = Err (newCannotChangeParameterError (ToLower (Name n)))
   <-> immutable)
  /\ (immutable -> forall plan, SetVar p n <> Ok plan)
  /\ (~ immutable -> exists plan, SetVar p n = Ok plan).
Proof.
  intros Hname Hlookup Htc immutable.
  assert (Hchk : exists typed,
             (typed = None <-> isResetStmt n = true)
             /\ SetVar p n
                = match Set_ vdesc, RuntimeSet vdesc, SetWithPlanner vdesc with
                  | None, None, None =>
                      Err (newCannotChangeParameterError (ToLower (Name n)))
                  | _, _, _ =>
                      match typed,
                            defaults (mutatorBase (mutatorIterator p))
                              !! ToLower (Name n),
                            GlobalDefault vdesc with
                      | None, None, None =>
                          Err (newCannotChangeParameterError
                                 (ToLower (Name n)))
                      | _, _, _ =>
                          Ok {| name := ToLower (Name n); local := Local_ n;
                                v := vdesc; typedValues := typed |}
                      end
                  end).
  { destruct (isResetStmt n) eqn:Hreset.
    - exists None. split; [tauto|].
      apply (SetVar_checked p n found vdesc None Hname Hlookup).
      rewrite Hreset. reflexivity.
    - destruct (Htc eq_refl) as (tvs & Htvs). exists (Some tvs).
      split; [split; discriminate|].
      apply (SetVar_checked p n found vdesc (Some tvs) Hname Hlookup).
      rewrite Hreset. exists tvs. split; [assumption|reflexivity]. }
  destruct Hchk as (typed & Htyped & ->).
  assert (Himm : immutable
                 <-> (Set_ vdesc = None /\ RuntimeSet vdesc = None
                      /\ SetWithPlanner vdesc = None)
                     \/ (typed = None
                         /\ defaults (mutatorBase (mutatorIterator p))
                              !! ToLower (Name n) = None
                         /\ GlobalDefault vdesc = None)).
  { unfold immutable, noSetter, noDefault. rewrite Htyped. tauto. }
  rewrite Himm. clear Himm Htyped immutable.
  destruct (Set_ vdesc), (RuntimeSet vdesc), (SetWithPlanner vdesc),
    typed, (defaults (mutatorBase (mutatorIterator p)) !! ToLower (Name n)),
    (GlobalDefault vdesc);
    (split; [split; [intros Heq; try discriminate Heq; tauto
                    |intros [(?&?&?)|(?&?&?)]; try discriminate; reflexivity]
            |split; [intros [(?&?&?)|(?&?&?)] plan; discriminate
                    |intros Hn; try (eexists; reflexivity);
                     exfalso; apply Hn; tauto]]).
Qed.

(** ** Arithmetic of the converters *)

Lemma int64_mul_wrap (a b : Z) : int64 (int64 a * b) = int64 (a * b).
Proof.
  unfold int64. f_equal.
  rewrite (Z.mod_eq (a + 2 ^ 63) (2 ^ 64)) by lia.
  set (q := (a + 2 ^ 63) / 2 ^ 64).
  replace ((a + 2 ^ 63 - 2 ^ 64 * q - 2 ^ 63) * b + 2 ^ 63)
    with (a * b + 2 ^ 63 + (- q * b) * 2 ^ 64) by ring.
  apply Z_mod_plus_full.
Qed.

Lemma inInt64_bounds (z : Z) :
  inInt64 z = true <-> MinInt64 <= z <= MaxInt64.
Proof. unfold inInt64. rewrite andb_true_iff, !Z.leb_le. tauto. Qed.

Lemma int64_inRange (z : Z) : inInt64 z = true -> int64 z = z.
Proof.
  rewrite inInt64_bounds. unfold MinInt64, MaxInt64, int64. intros Hz.
  rewrite Z.mod_small by lia. lia.
Qed.

Lemma Decimal_Int64_complete (d : Decimal) (n : Z) :
  DForm d = Finite -> decimalIsInteger d n -> inInt64 n = true ->
  Decimal_Int64 d = Ok n.
Proof.
  intros Hf Hn Hr. apply inInt64_bounds in Hr.
  unfold decimalIsInteger, signedCoeff in Hn. unfold Decimal_Int64.
  rewrite Hf. destruct (Z.leb_spec 0 (Exponent d)) as [He|He].
  - rewrite Z.max_r in Hn by lia. rewrite Z.max_l in Hn by lia.
    cbn [negb Z.eqb]. rewrite Z.pow_0_r, Z.mul_1_r in Hn.
    assert (Hv : (if Negative d then - (Coeff d * 10 ^ Exponent d)
                  else Coeff d * 10 ^ Exponent d) = n).
    { destruct (Negative d); lia. }
    rewrite Hv.
    destruct (Z.ltb_spec MaxInt64 n); [lia|].
    destruct (Z.ltb_spec n MinInt64); [lia|]. reflexivity.
  - rewrite Z.max_l in Hn by lia. rewrite Z.max_r in Hn by lia.
    rewrite Z.pow_0_r, Z.mul_1_r in Hn.
    assert (Hpow : 0 < 10 ^ (- Exponent d)) by (apply Z.pow_pos_nonneg; lia).
    assert (Hc : Coeff d = (if Negative d then - n else n)
                           * 10 ^ (- Exponent d)).
    { destruct (Negative d); lia. }
    rewrite Hc, Z.rem_mul, Z.quot_mul by lia. cbn [negb Z.eqb].
    assert (Hv : (if Negative d then - (if Negative d then - n else n)
                  else (if Negative d then - n else n)) = n).
    { destruct (Negative d); lia. }
    rewrite Hv.
    destruct (Z.ltb_spec MaxInt64 n); [lia|].
    destruct (Z.ltb_spec n MinInt64); [lia|]. reflexivity.
Qed.

Lemma Decimal_Int64_sound (d : Decimal) (n : Z) :
  Decimal_Int64 d = Ok n ->
  DForm d = Finite /\ decimalIsInteger d n /\ inInt64 n = true.
Proof.
  unfold Decimal_Int64, decimalIsInteger, signedCoeff.
  destruct (DForm d); [|discriminate|discriminate].
  destruct (Z.leb_spec 0 (Exponent d)) as [He|He].
  - cbn [negb Z.eqb].
    destruct (Z.ltb_spec MaxInt64
                (if Negative d then - (Coeff d * 10 ^ Exponent d)
                 else Coeff d * 10 ^ Exponent d)); [discriminate|].
    destruct (Z.ltb_spec
                (if Negative d then - (Coeff d * 10 ^ Exponent d)
                 else Coeff d * 10 ^ Exponent d) MinInt64); [discriminate|].
    intros [= <-]. split; [reflexivity|]. split.
    + rewrite Z.max_r by lia. rewrite Z.max_l by lia.
      rewrite Z.pow_0_r. destruct (Negative d); lia.
    + apply inInt64_bounds. lia.
  - assert (Hpow : 0 < 10 ^ (- Exponent d)) by (apply Z.pow_pos_nonneg; lia).
    destruct (Z.eqb_spec (Z.rem (Coeff d) (10 ^ (- Exponent d))) 0)
      as [Hrem|Hrem]; cbn [negb]; [|discriminate].
    pose proof (Z.quot_rem' (Coeff d) (10 ^ (- Exponent d))) as Hqr.
    rewrite Hrem in Hqr.
    set (q := Z.quot (Coeff d) (10 ^ (- Exponent d))) in *.
    destruct (Z.ltb_spec MaxInt64 (if Negative d then - q else q));
      [discriminate|].
    destruct (Z.ltb_spec (if Negative d then - q else q) MinInt64);
      [discriminate|].
    intros [= <-]. split; [reflexivity|]. split.
    + rewrite Z.max_l by lia. rewrite Z.max_r by lia.
      rewrite Z.pow_0_r. destruct (Negative d); lia.
    + apply inInt64_bounds. lia.
Qed.

Lemma timeZoneSwitch_decimal_finite (value : TypedExpr) (d : datum)
    (dec : Decimal) :
  UnwrapDatum d = DDecimal dec ->
  DForm dec = Finite ->
  timeZoneSwitch value d
  = match Decimal_Int64 (scaledToSeconds dec) with
    | Ok n => Ok (None, n)
    | Err _ =>
        Err (wrapSetVarError "timezone" (ExprString value)
               "time zone value %s would overflow an int64"
               [ArgDecimal (scaledToSeconds dec)])
    end.
Proof.
  intros Hd Hf. unfold timeZoneSwitch. rewrite Hd.
  destruct dec as [form neg e c]. cbn in Hf. subst form.
  unfold ErrDecimal_Mul, ErrDecimal_Int64, MakeErrDecimal. cbn [EDErr].
  unfold ExactCtx_Mul. cbn [apdNew DForm Negative Exponent Coeff EDErr].
  replace (xorb (xorb (60 <? 0) (60 <? 0)) neg) with neg
    by (destruct neg; reflexivity).
  replace (0 + 0 + e) with e by lia.
  replace (Z.abs 60 * Z.abs 60 * c) with (3600 * c) by lia.
  unfold scaledToSeconds. cbn [DForm Negative Exponent Coeff].
  destruct (Decimal_Int64 _); reflexivity.
Qed.

Lemma scaledToSeconds_integer (dec : Decimal) (n : Z) :
  DForm dec = Finite ->
  decimalIsInteger (scaledToSeconds dec) n <-> decimalHoursAreSeconds dec n.
Proof.
  intros Hf. unfold decimalIsInteger, decimalHoursAreSeconds, signedCoeff.
  cbn [scaledToSeconds Negative Exponent Coeff].
  split.
  - intros Hn. split; [assumption|]. destruct (Negative dec); lia.
  - intros [_ Hn]. destruct (Negative dec); lia.
Qed.

(** A decimal of hours that is exactly [n] seconds, [n] an [int64]. *)
Lemma timeZoneSwitch_decimal_exact (value : TypedExpr) (d : datum)
    (dec : Decimal) (n : Z) :
  UnwrapDatum d = DDecimal dec ->
  decimalHoursAreSeconds dec n -> inInt64 n = true ->
  timeZoneSwitch value d = Ok (None, n).
Proof.
  intros Hd Hn Hr. pose proof Hn as [Hf _].
  rewrite (timeZoneSwitch_decimal_finite value d dec Hd Hf).
  rewrite (Decimal_Int64_complete (scaledToSeconds dec) n); [reflexivity| | |].
  - reflexivity.
  - apply scaledToSeconds_integer; assumption.
  - assumption.
Qed.

(** A decimal of hours that is no [int64] number of seconds. *)
Lemma timeZoneSwitch_decimal_overflow (value : TypedExpr) (d : datum)
    (dec : Decimal) :
  UnwrapDatum d = DDecimal dec ->
  (forall n, inInt64 n = true -> ~ decimalHoursAreSeconds dec n) ->
  exists sixty,
    timeZoneSwitch value d
    = Err (wrapSetVarError "timezone" (ExprString value)
             "time zone value %s would overflow an int64"
             [ArgDecimal sixty]).
Proof.
  intros Hd Hno. destruct (DForm dec) eqn:Hf.
  - rewrite (timeZoneSwitch_decimal_finite value d dec Hd Hf).
    destruct (Decimal_Int64 (scaledToSeconds dec)) as [n|e] eqn:Hint.
    + apply Decimal_Int64_sound in Hint as (_ & Hn & Hr).
      exfalso. apply (Hno n Hr). apply scaledToSeconds_integer; assumption.
    + eexists. reflexivity.
  - unfold timeZoneSwitch. rewrite Hd.
    unfold ErrDecimal_Mul, ErrDecimal_Int64, MakeErrDecimal, ExactCtx_Mul,
      Decimal_Int64, decimalIsZero.
    cbn [apdNew DForm Negative Exponent Coeff EDErr fst snd].
    rewrite Hf. cbn. eexists. reflexivity.
  - unfold timeZoneSwitch. rewrite Hd.
    unfold ErrDecimal_Mul, ErrDecimal_Int64, MakeErrDecimal, ExactCtx_Mul,
      Decimal_Int64, decimalIsZero.
    cbn [apdNew DForm Negative Exponent Coeff EDErr fst snd].
    rewrite Hf. cbn. eexists. reflexivity.
Qed.

Lemma timeZoneVarLocation_offset (ctx : EvalContext)
    (value : TypedExpr) (d : datum) (offset : Z) :
  Eval value ctx = Ok d ->
  timeZoneSwitch value d = Ok (None, offset) ->
  timeZoneVarLocation ctx [value]
  = Ok (FixedOffsetZone offset (datumString d)).
Proof.
  intros He Hs. unfold timeZoneVarLocation. rewrite He, Hs. reflexivity.
Qed.

Lemma timeZoneVarGetStringVal_offset (ctx : EvalContext)
    (value : TypedExpr) (d : datum) (offset : Z) :
  Eval value ctx = Ok d ->
  timeZoneSwitch value d = Ok (None, offset) ->
  timeZoneVarGetStringVal ctx [value]
  = Ok (locationString (FixedOffsetZone offset (datumString d))).
Proof.
  intros He Hs. unfold timeZoneVarGetStringVal, timeZoneVarLocation.
  rewrite He, Hs. reflexivity.
Qed.

(** C5. The time-zone converter resolves the integer 5, the decimal 5.0
    and an interval of 5 hours to a fixed-offset zone of 18000 seconds, and
    the integer -8 to one of -28800 seconds, each labelled with the text of
    its value. An integer is multiplied by 3600 (in 64-bit arithmetic), a
    float is multiplied by 60.0 twice and truncated, a decimal of hours
    that is a whole number of seconds yields that number, and the encoded
    nanoseconds of an interval are divided by a second, truncating toward
    zero. The three zones of 5 hours have the one offset. *)
Theorem C5_time_zone_fixed_offsets (ctx : EvalContext) (value : TypedExpr) :
  (timeZoneVarGetStringVal ctx [datumExpr (DInt 5)]
   = Ok (locationString (FixedOffsetZone 18000 (datumString (DInt 5))))
   /\ timeZoneVarGetStringVal ctx [datumExpr (DDecimal (apdNew 50 (-1)))]
      = Ok (locationString
              (FixedOffsetZone 18000
                 (datumString (DDecimal (apdNew 50 (-1))))))
   /\ timeZoneVarGetStringVal ctx [datumExpr (DInterval (hours 5))]
      = Ok (locationString
              (FixedOffsetZone 18000 (datumString (DInterval (hours 5)))))
   /\ timeZoneVarGetStringVal ctx [datumExpr (DInt (-8))]
      = Ok (locationString
              (FixedOffsetZone (-28800) (datumString (DInt (-8))))))
  /\ (forall i, timeZoneSwitch value (DInt i) = Ok (None, int64 (i * 3600)))
  /\ (forall i, inInt64 (i * 3600) = true ->
                timeZoneSwitch value (DInt i) = Ok (None, i * 3600))
  /\ (forall f,
        timeZoneSwitch value (DFloat f)
        = Ok (None,
              float64_to_int64 float64Indefinite
                (float64_mul (float64_mul f (float64_of_Z 60))
                   (float64_of_Z 60))))
  /\ timeZoneSwitch value (DFloat Fixture.fiveAndAHalf) = Ok (None, 19800)
  /\ (forall dec n,
        decimalHoursAreSeconds dec n -> inInt64 n = true ->
        timeZoneSwitch value (DDecimal dec) = Ok (None, n))
  /\ (forall dur,
        inInt64 (totalNanos dur) = true ->
        timeZoneSwitch value (DInterval dur)
        = Ok (None, Z.quot (totalNanos dur) Second))
  /\ timeZoneSwitch value (DInterval (subDay 1999999999)) = Ok (None, 1)
  /\ timeZoneSwitch value (DInterval (subDay (-1999999999))) = Ok (None, -1)
  /\ Forall (fun d =>
               exists loc,
                 timeZoneVarLocation ctx [datumExpr d] = Ok loc
                 /\ zoneOffset loc = Some 18000)
       [DInt 5; DDecimal (apdNew 50 (-1)); DInterval (hours 5)].
Proof.
  assert (Hint : forall val i,
             timeZoneSwitch val (DInt i) = Ok (None, int64 (i * 3600))).
  { intros val i. unfold timeZoneSwitch. cbn [UnwrapDatum].
    rewrite int64_mul_wrap. do 3 f_equal. lia. }
  assert (Hivl : forall val dur,
             inInt64 (totalNanos dur) = true ->
             timeZoneSwitch val (DInterval dur)
             = Ok (None, Z.quot (totalNanos dur) Second)).
  { intros val dur Hr. unfold timeZoneSwitch, Encode. cbn [UnwrapDatum].
    fold (totalNanos dur). rewrite Hr. reflexivity. }
  split; [|split; [|split; [|split; [|split; [|split; [|split; [|split;
    [|split]]]]]]]].
  - split; [|split; [|split]].
    + apply timeZoneVarGetStringVal_offset; [reflexivity|].
      rewrite Hint. reflexivity.
    + apply timeZoneVarGetStringVal_offset; [reflexivity|].
      apply (timeZoneSwitch_decimal_exact _ _ (apdNew 50 (-1)));
        [reflexivity| |reflexivity].
      split; reflexivity.
    + apply timeZoneVarGetStringVal_offset; [reflexivity|].
      rewrite Hivl; reflexivity.
    + apply timeZoneVarGetStringVal_offset; [reflexivity|].
      rewrite Hint. reflexivity.
  - exact (Hint value).
  - intros i Hr. rewrite Hint, (int64_inRange _ Hr). reflexivity.
  - intros f. reflexivity.
  - unfold timeZoneSwitch. cbn [UnwrapDatum]. do 2 f_equal.
  - intros dec n Hn Hr.
    apply (timeZoneSwitch_decimal_exact _ _ dec);
      [reflexivity|assumption|assumption].
  - exact (Hivl value).
  - rewrite Hivl; reflexivity.
  - rewrite Hivl; reflexivity.
  - constructor; [|constructor; [|constructor; [|constructor]]].
    + eexists. split.
      * apply timeZoneVarLocation_offset; [reflexivity|].
        rewrite Hint. reflexivity.
      * reflexivity.
    + eexists. split.
      * apply timeZoneVarLocation_offset; [reflexivity|].
        apply (timeZoneSwitch_decimal_exact _ _ (apdNew 50 (-1)) 18000);
          [reflexivity| |reflexivity].
        split; reflexivity.
      * reflexivity.
    + eexists. split.
      * apply timeZoneVarLocation_offset; [reflexivity|].
        rewrite Hivl; reflexivity.
      * reflexivity.
Qed.


(** What a timeout setter does with a string, by the outcome of the
    parse. *)
Lemma timeoutVarSet_validate (t : timeoutVar) (m : sessionDataMutator)
    (s : string) :
  timeoutVarSet t m s
  = match validateTimeoutVar (GetIntervalStyle (data m)) s
            (timeoutVarName t) with
    | Err err => (m, Some err)
    | Ok timeout =>
        (match t with
         | StatementTimeout => SetStmtTimeout m timeout
         | LockTimeoutVar => SetLockTimeout m timeout
         | IdleInSessionTimeoutVar => SetIdleInSessionTimeout m timeout
         | IdleInTransactionSessionTimeoutVar =>
             SetIdleInTransactionSessionTimeout m timeout
         end, None)
    end.
Proof.
  destruct t; cbn [timeoutVarSet timeoutVarName];
    unfold stmtTimeoutVarSet, lockTimeoutVarSet, idleInSessionTimeoutVarSet,
      idleInTransactionSessionTimeoutVarSet;
    destruct (validateTimeoutVar _ _ _); reflexivity.
Qed.

(** C7. Each of the four timeout setters, given a string that parses to a
    negative duration, returns the value error that names its parameter and
    leaves the mutator, and so the stored timeout, as it was. *)
Theorem C7_negative_timeout_rejected (t : timeoutVar)
    (m : sessionDataMutator) (s : string) (interval : Duration)
    (timeout : Z) :
  ParseDIntervalWithTypeMetadata (GetIntervalStyle (data m)) s
    millisecondMetadata = Ok interval ->
  intervalToDuration interval = Ok timeout ->
  timeout < 0 ->
  exists err,
    timeoutVarSet t m s = (m, Some err)
    /\ err = wrapSetVarError (timeoutVarName t) s
               "%v cannot have a negative duration"
               [ArgString (timeoutVarName t)]
    /\ namesParameter err (timeoutVarName t)
    /\ timeoutVarStored t (data (fst (timeoutVarSet t m s)))
       = timeoutVarStored t (data m).
Proof.
  intros Hparse Hdur Hneg.
  assert (Hv : validateTimeoutVar (GetIntervalStyle (data m)) s
                 (timeoutVarName t)
               = Err (wrapSetVarError (timeoutVarName t) s
                        "%v cannot have a negative duration"
                        [ArgString (timeoutVarName t)])).
  { unfold validateTimeoutVar. rewrite Hparse, Hdur.
    destruct (Z.ltb_spec timeout 0); [reflexivity|lia]. }
  eexists. rewrite timeoutVarSet_validate, Hv.
  split; [reflexivity|]. split; [reflexivity|]. split; reflexivity.
Qed.



(** C9. For a value that is, once unwrapped, neither a text nor an
    interval nor an integer, the timeout converter returns the rendering
    of the zero duration and no error. *)
Theorem C9_timeout_converter_unsupported_type (varName : string)
    (ctx : EvalContext) (value : TypedExpr) (d : datum) :
  Eval value ctx = Ok d ->
  (forall s, UnwrapDatum d <> DString s) ->
  (forall interval, UnwrapDatum d <> DInterval interval) ->
  (forall i, UnwrapDatum d <> DInt i) ->
  makeTimeoutVarGetter varName ctx [value] = Ok (durationString 0).
Proof.
  intros He Hs Hi Hn. unfold makeTimeoutVarGetter. rewrite He.
  destruct (UnwrapDatum d) as [s|interval|i| | | |] eqn:Hu;
    try reflexivity.
  - exfalso. exact (Hs s eq_refl).
  - exfalso. exact (Hi interval eq_refl).
  - exfalso. exact (Hn i eq_refl).
Qed.


End Properties.

(** * The properties on the fixtures *)

(** SET picky = 'abc' on five levels, the third of which refuses: the first
    two keep the value, the last two are untouched, the error is the third
    level's. *)
Lemma C1_witness_third_of_five :
  exists n' p',
    startExec (H := Fixture.engine) Fixture.setPicky Fixture.fiveLevels
    = Some (n', p', Some (Foreign "third level refuses"),
            [CallSet "abc"; CallSet "abc"; CallSet "abc"])
    /\ map StmtTimeout (sds (mutatorIterator p')) = [3; 3; 0; 0; 0].
Proof.
  do 2 eexists. split.
  - apply (proj1 (C1_set_session_first_error_no_rollback
                    (H := Fixture.engine) Fixture.setPicky _
                    Fixture.fiveLevels "abc" Fixture.failsOnThird
                    eq_refl eq_refl eq_refl eq_refl eq_refl)
             [Fixture.level 1; Fixture.level 2] (Fixture.level 3)
             [Fixture.level 4; Fixture.level 5]
             (Foreign "third level refuses")).
    + reflexivity.
    + repeat constructor.
    + reflexivity.
  - reflexivity.
Defined.

(** SET LOCAL picky = 'abc': in an explicit transaction only the top level
    changes; in an implicit one nothing changes and the warning is the only
    notice. *)
Lemma C2_witness_local_scopes :
  (exists n' p',
      startExec (H := Fixture.engine) Fixture.setPickyLocal Fixture.twoLevels
      = Some (n', p', None, [CallSet "abc"])
      /\ map StmtTimeout (sds (mutatorIterator p')) = [0; 3])
  /\ (exists n' p',
         startExec (H := Fixture.engine) Fixture.setPickyLocal
           Fixture.implicitTwoLevels
         = Some (n', p', None, [])
         /\ mutatorIterator p' = mutatorIterator Fixture.implicitTwoLevels
         /\ notices p' = [setLocalWarning]).
Proof.
  split.
  - do 2 eexists. split.
    + apply (proj2 (C2_set_local_scoping
                      (H := Fixture.engine) Fixture.setPickyLocal _
                      Fixture.twoLevels "abc" Fixture.failsOnThird
                      eq_refl eq_refl eq_refl eq_refl eq_refl)
               eq_refl [Fixture.level 1] (Fixture.level 2)).
      reflexivity.
    + reflexivity.
  - eexists.
    exact (proj1 (C2_set_local_scoping
                    (H := Fixture.engine) Fixture.setPickyLocal _
                    Fixture.implicitTwoLevels "abc" Fixture.failsOnThird
                    eq_refl eq_refl eq_refl eq_refl eq_refl)
             eq_refl).
Defined.

(** SET LOCAL enable_seqscan = 'on' outside a transaction block: the
    parameter is deprecated, so the execution emits two warnings, not one. *)
Lemma C2_counterexample_two_warnings :
  local Fixture.setLocalSeqscan = true
  /\ RuntimeSet (v Fixture.setLocalSeqscan) = None
  /\ SetWithPlanner (v Fixture.setLocalSeqscan) = None
  /\ TxnImplicit (evalCtx Fixture.implicitOneLevel) = true
  /\ exists n' p',
       startExec (H := Fixture.engine) Fixture.setLocalSeqscan
         Fixture.implicitOneLevel
       = Some (n', p', None, [])
       /\ notices Fixture.implicitOneLevel = []
       /\ notices p' = [dummyVarWarning "enable_seqscan"; setLocalWarning]
       /\ noticesEmitted Fixture.implicitOneLevel p' <> 1%nat.
Proof.
  repeat (split; [reflexivity|]).
  do 2 eexists. split; [vm_compute; reflexivity|].
  split; [reflexivity|]. split; [reflexivity|].
  vm_compute. discriminate.
Qed.



(** RESET lock_timeout: the parameter has a setter, but neither a session
    default nor a global default, so the request is refused. *)
Lemma C4_witness_reset_without_default :
  SetVar (H := Fixture.engine) Fixture.oneLevel Fixture.resetLockTimeout
  = Err (newCannotChangeParameterError "lock_timeout").
Proof.
  apply (proj1 (C4_cannot_change_parameter
                  (H := Fixture.engine) Fixture.oneLevel
                  Fixture.resetLockTimeout true Fixture.lockTimeoutVar
                  ltac:(discriminate) eq_refl ltac:(discriminate))).
  right. split; [reflexivity|]. split; reflexivity.
Defined.

(** SET server_version = nosuchfn(): the descriptor has no setter at all,
    yet the request fails with the value error of the type check, which
    comes first, and not with "cannot be changed". *)
Lemma C4_counterexample_type_error_first :
  getSessionVar (Collaborators := Fixture.engine)
    (ToLower (Collaborators := Fixture.engine)
       (Name Fixture.setServerVersion)) false
  = (true, Fixture.serverVersionVar, None)
  /\ noSetter Fixture.serverVersionVar
  /\ SetVar (H := Fixture.engine) Fixture.oneLevel Fixture.setServerVersion
     = Err (wrapSetVarError "server_version" "nosuchfn()" "%v"
              [ArgError (Foreign "unknown function")])
  /\ SetVar (H := Fixture.engine) Fixture.oneLevel Fixture.setServerVersion
     <> Err (newCannotChangeParameterError "server_version").
Proof.
  split; [reflexivity|]. split; [repeat split|].
  split; [vm_compute; reflexivity|]. vm_compute. discriminate.
Qed.

(** 5.5 hours as a decimal are 19800 seconds; an interval of 90 minutes is
    5400 seconds; the integer 2 is 7200 seconds. *)
Lemma C5_witness_fractional_hours :
  timeZoneSwitch (H := Fixture.engine) (Fixture.literal "x")
    (DDecimal (apdNew 55 (-1))) = Ok (None, 19800)
  /\ timeZoneSwitch (H := Fixture.engine) (Fixture.literal "x")
       (DInterval (subDay (5400 * Second))) = Ok (None, 5400)
  /\ timeZoneSwitch (H := Fixture.engine) (Fixture.literal "x") (DInt 2)
     = Ok (None, 7200).
Proof.
  pose proof (C5_time_zone_fixed_offsets (H := Fixture.engine)
                {| TxnImplicit := false |} (Fixture.literal "x"))
    as (_ & _ & Hint & _ & _ & Hdec & Hivl & _).
  split; [|split].
  - apply (Hdec (apdNew 55 (-1)) 19800); [split; reflexivity|reflexivity].
  - apply (Hivl (subDay (5400 * Second))). reflexivity.
  - apply (Hint 2). reflexivity.
Defined.


(** lock_timeout = '-1' is refused and the stored timeout stays 7. *)
Lemma C7_witness_lock_timeout_minus_one :
  exists err,
    timeoutVarSet (H := Fixture.engine) LockTimeoutVar
      {| data := Fixture.level 7 |} "-1"
    = ({| data := Fixture.level 7 |}, Some err)
    /\ err = wrapSetVarError "lock_timeout" "-1"
               "%v cannot have a negative duration"
               [ArgString "lock_timeout"]
    /\ namesParameter err "lock_timeout"
    /\ LockTimeout
         (data (fst (timeoutVarSet (H := Fixture.engine) LockTimeoutVar
                       {| data := Fixture.level 7 |} "-1")))
       = 7.
Proof.
  exact (C7_negative_timeout_rejected
           (H := Fixture.engine) LockTimeoutVar {| data := Fixture.level 7 |}
           "-1" (subDay (-1000000)) (-1000000) eq_refl eq_refl
           ltac:(lia)).
Defined.


(** A boolean and a float are rendered as the zero duration. *)
Lemma C9_witness_boolean_and_float :
  makeTimeoutVarGetter (H := Fixture.engine) "lock_timeout"
    {| TxnImplicit := false |}
    [datumExpr (H := Fixture.engine) (DBool true)]
  = Ok "0s"
  /\ makeTimeoutVarGetter (H := Fixture.engine) "lock_timeout"
       {| TxnImplicit := false |}
       [datumExpr (H := Fixture.engine) (DFloat Fixture.fiveAndAHalf)]
     = Ok "0s".
Proof.
  split.
  - apply (C9_timeout_converter_unsupported_type
             (H := Fixture.engine) "lock_timeout" {| TxnImplicit := false |}
             (datumExpr (H := Fixture.engine) (DBool true)) (DBool true)
             eq_refl); intros; discriminate.
  - apply (C9_timeout_converter_unsupported_type
             (H := Fixture.engine) "lock_timeout" {| TxnImplicit := false |}
             (datumExpr (H := Fixture.engine) (DFloat Fixture.fiveAndAHalf))
             (DFloat Fixture.fiveAndAHalf) eq_refl); intros; discriminate.
Defined.


(** * Further properties of the code *)

Section MoreProperties.
Context `{Collaborators}.

(** ** The statement compiler *)

Lemma analyzeValues_length (p : planner) (name : string)
    (exprs : list Expr) (typed : list TypedExpr) :
  analyzeValues p name exprs = Ok typed -> length typed = length exprs.
Proof.
  revert typed. induction exprs as [|e rest IH]; intros typed.
  - intros [= <-]. reflexivity.
  - cbn [analyzeValues].
    destruct (analyzeExpr p (UnresolvedNameToStrVal e) _) as [tv|err];
      [|discriminate].
    destruct (analyzeValues p name rest) as [tvs|err]; [|discriminate].
    intros [= <-]. cbn [length]. f_equal. apply IH. reflexivity.
Qed.

(** The type-checking loop stops at the first value that fails. *)
Lemma analyzeValues_first_error (p : planner) (name : string)
    (pre post : list Expr) (e : Expr) (err : error) :
  Forall (fun x => exists tv,
              analyzeExpr p (UnresolvedNameToStrVal x)
                ("SET SESSION " +:+ name) = Ok tv) pre ->
  analyzeExpr p (UnresolvedNameToStrVal e) ("SET SESSION " +:+ name)
  = Err err ->
  analyzeValues p name (pre ++ e :: post)
  = Err (wrapSetVarError name (exprString (UnresolvedNameToStrVal e)) "%v"
           [ArgError err]).
Proof.
  intros Hpre He. induction Hpre as [|x pre (tv & Hx) _ IH].
  - cbn [app analyzeValues]. rewrite He. reflexivity.
  - cbn [app analyzeValues]. rewrite Hx, IH. reflexivity.
Qed.

(** What a plan that [SetVar] returns looks like. *)
Lemma SetVar_ok_inv (p : planner) (n : SetVarStmt) (plan : setVarNode) :
  SetVar p n = Ok plan ->
  Name n <> ""
  /\ name plan = ToLower (Name n)
  /\ local plan = Local_ n
  /\ (exists found, getSessionVar (name plan) false = (found, v plan, None))
  /\ ~ noSetter (v plan)
  /\ match typedValues plan with
     | None => isResetStmt n = true /\ ~ noDefault p (name plan) (v plan)
     | Some typed =>
         isResetStmt n = false
         /\ analyzeValues p (name plan) (Values n) = Ok typed
         /\ length typed = length (Values n)
     end.
Proof.
  unfold SetVar.
  destruct (String.eqb (Name n) "") eqn:Hname; [discriminate|].
  apply String.eqb_neq in Hname.
  destruct (getSessionVar (ToLower (Name n)) false)
    as [[found vdesc] [err|]] eqn:Hlook; [discriminate|].
  assert (Hshape :
            forall typed : option (list TypedExpr),
              match Set_ vdesc, RuntimeSet vdesc, SetWithPlanner vdesc with
              | None, None, None =>
                  Err (newCannotChangeParameterError (ToLower (Name n)))
              | _, _, _ =>
                  match typed,
                        defaults (mutatorBase (mutatorIterator p))
                          !! ToLower (Name n),
                        GlobalDefault vdesc with
                  | None, None, None =>
                      Err (newCannotChangeParameterError (ToLower (Name n)))
                  | _, _, _ =>
                      Ok {| name := ToLower (Name n); local := Local_ n;
                            v := vdesc; typedValues := typed |}
                  end
              end = Ok plan ->
              plan = {| name := ToLower (Name n); local := Local_ n;
                        v := vdesc; typedValues := typed |}
              /\ ~ noSetter vdesc
              /\ (typed = None ->
                  ~ noDefault p (ToLower (Name n)) vdesc)).
  { intros typed. unfold noSetter, noDefault.
    destruct (Set_ vdesc), (RuntimeSet vdesc), (SetWithPlanner vdesc),
      typed, (defaults (mutatorBase (mutatorIterator p)) !! ToLower (Name n)),
      (GlobalDefault vdesc);
      intros Heq; try discriminate Heq; injection Heq as <-;
      (split; [reflexivity|]; split;
       [intros (?&?&?); discriminate
       |intros Hn [? ?]; discriminate]). }
  destruct ((0 <? Z.of_nat (length (Values n)))
            && negb match Values n with
                    | [DefaultVal] => true
                    | _ => false
                    end) eqn:Hcond.
  - destruct (analyzeValues p (ToLower (Name n)) (Values n)) as [typed|err]
      eqn:Htyped; [|discriminate].
    intros Hok. destruct (Hshape (Some typed) Hok) as (-> & Hset & _).
    cbn [name local v typedValues].
    split; [assumption|]. split; [reflexivity|]. split; [reflexivity|].
    split; [exists found; assumption|]. split; [assumption|].
    split; [|split; [assumption|eapply analyzeValues_length; eassumption]].
    unfold isResetStmt. destruct (Values n) as [|[] []]; try reflexivity;
      discriminate Hcond.
  - intros Hok. destruct (Hshape None Hok) as (-> & Hset & Hdef).
    cbn [name local v typedValues].
    split; [assumption|]. split; [reflexivity|]. split; [reflexivity|].
    split; [exists found; assumption|]. split; [assumption|].
    split; [|exact (Hdef eq_refl)].
    unfold isResetStmt. destruct (Values n) as [|[] []]; try reflexivity;
      discriminate Hcond.
Qed.

(** X1. A plan that [SetVar] returns carries the lower-cased name, the
    scope flag of the statement and the descriptor the registry gave for
    that name; the descriptor has at least one setter; a RESET (no value,
    or the single value DEFAULT) has no typed values and a default to fall
    back on; an assignment has one typed value for each value of the
    statement, in order. *)
Theorem X1_SetVar_plan_shape (p : planner) (n : SetVarStmt)
    (plan : setVarNode) :
  SetVar p n = Ok plan ->
  Name n <> ""
  /\ name plan = ToLower (Name n)
  /\ local plan = Local_ n
  /\ (exists found, getSessionVar (name plan) false = (found, v plan, None))
  /\ ~ noSetter (v plan)
  /\ match typedValues plan with
     | None => isResetStmt n = true /\ ~ noDefault p (name plan) (v plan)
     | Some typed =>
         isResetStmt n = false
         /\ analyzeValues p (name plan) (Values n) = Ok typed
         /\ length typed = length (Values n)
     end.
Proof. exact (SetVar_ok_inv p n plan). Qed.

(** X2. A plan compiled by [SetVar] never makes [startExec] call a nil
    setter: executed on any session that has at least one scope level, it
    returns (with or without an error). *)
Theorem X2_compiled_plan_executes (p p' : planner) (n : SetVarStmt)
    (plan : setVarNode) :
  SetVar p n = Ok plan ->
  sds (mutatorIterator p') <> [] ->
  exists n' p'' err calls, startExec plan p' = Some (n', p'', err, calls).
Proof.
  intros Hok Hsds.
  destruct (SetVar_ok_inv p n plan Hok) as (_ & _ & _ & _ & Hset & _).
  destruct (startExec_returns plan p' Hset Hsds) as ([[[n' p''] err] calls] & Hr).
  exists n', p'', err, calls. exact Hr.
Qed.


(** X4. When the values of an assignment do not all type-check, [SetVar]
    fails with the value error of the first value that fails: the error
    names the parameter and the text of that value, the cause is its
    detail, and the values after it play no part. *)
Theorem X4_first_type_error_wins (p : planner) (n : SetVarStmt)
    (found : bool) (vdesc : sessionVar) (pre post : list Expr) (e : Expr)
    (err : error) :
  Name n <> "" ->
  getSessionVar (ToLower (Name n)) false = (found, vdesc, None) ->
  isResetStmt n = false ->
  Values n = pre ++ e :: post ->
  Forall (fun x => exists tv,
              analyzeExpr p (UnresolvedNameToStrVal x)
                ("SET SESSION " +:+ ToLower (Name n)) = Ok tv) pre ->
  analyzeExpr p (UnresolvedNameToStrVal e)
    ("SET SESSION " +:+ ToLower (Name n)) = Err err ->
  SetVar p n
  = Err (wrapSetVarError (ToLower (Name n))
           (exprString (UnresolvedNameToStrVal e)) "%v" [ArgError err]).
Proof.
  intros Hname Hlook Hreset Hvals Hpre He. unfold SetVar.
  apply String.eqb_neq in Hname. rewrite Hname, Hlook.
  assert (Hcond : (0 <? Z.of_nat (length (Values n)))
                  && negb match Values n with
                          | [DefaultVal] => true
                          | _ => false
                          end = true).
  { unfold isResetStmt in Hreset.
    destruct (Values n) as [|[] []]; try reflexivity; discriminate Hreset. }
  rewrite Hcond, Hvals.
  rewrite (analyzeValues_first_error p _ pre post e err Hpre He).
  reflexivity.
Qed.

(** ** Execution *)

Lemma evalValues_all (ctx : EvalContext) (values : list TypedExpr)
    (ds : list datum) :
  Forall2 (fun value d => Eval value ctx = Ok d) values ds ->
  evalValues ctx values = (map datumExpr ds, None).
Proof.
  intros Hall. induction Hall as [|value d values ds Hv _ IH];
    [reflexivity|].
  cbn [evalValues map]. rewrite Hv, IH. reflexivity.
Qed.

Lemma evalValues_first_error (ctx : EvalContext)
    (pre post : list TypedExpr) (ds : list datum) (bad : TypedExpr)
    (e : error) :
  Forall2 (fun value d => Eval value ctx = Ok d) pre ds ->
  Eval bad ctx = Err e ->
  evalValues ctx (pre ++ bad :: post)
  = (map datumExpr ds ++ bad :: post, Some e).
Proof.
  intros Hpre Hbad. induction Hpre as [|value d pre ds Hv _ IH].
  - cbn [app map evalValues]. rewrite Hbad. reflexivity.
  - cbn [app map evalValues]. rewrite Hv, IH. reflexivity.
Qed.

(** X5. Evaluation fails fast: when a value of an assignment fails to
    evaluate, [startExec] returns the error of the first such value; the
    values before it have been replaced in the node by what they evaluate
    to, that value and the ones after it are left as they were; no
    converter and no setter runs, and the session is unchanged but for the
    notice of a deprecated parameter. *)
Theorem X5_evaluation_fails_fast (n : setVarNode) (p : planner)
    (pre post : list TypedExpr) (ds : list datum) (bad : TypedExpr)
    (e : error) :
  typedValues n = Some (pre ++ bad :: post) ->
  Forall2 (fun value d => Eval value (evalCtx p) = Ok d) pre ds ->
  Eval bad (evalCtx p) = Err e ->
  startExec n p
  = Some (withTypedValues n (Some (map datumExpr ds ++ bad :: post)),
          noteDummyVar n p, Some e, [])
  /\ mutatorIterator (noteDummyVar n p) = mutatorIterator p.
Proof.
  intros Htv Hpre Hbad. split; [|apply noteDummyVar_iterator].
  unfold startExec, resolveValue. rewrite Htv, noteDummyVar_evalCtx.
  rewrite (evalValues_first_error _ _ _ _ _ _ Hpre Hbad). reflexivity.
Qed.

(** X6. A parameter without a converter of its own takes exactly one
    value: with none or with several values that all evaluate, [startExec]
    returns the error "SET name takes only one argument", calls no setter
    and leaves the mutators as they were. *)
Theorem X6_generic_converter_arity (n : setVarNode) (p : planner)
    (values : list TypedExpr) (ds : list datum) :
  GetStringVal (v n) = None ->
  typedValues n = Some values ->
  Forall2 (fun value d => Eval value (evalCtx p) = Ok d) values ds ->
  length values <> 1%nat ->
  startExec n p
  = Some (withTypedValues n (Some (map datumExpr ds)),
          noteDummyVar n p, Some (newSingleArgVarError (name n)), [])
  /\ mutatorIterator (noteDummyVar n p) = mutatorIterator p.
Proof.
  intros Hconv Htv Hall Hlen. split; [|apply noteDummyVar_iterator].
  unfold startExec, resolveValue. rewrite Htv, noteDummyVar_evalCtx.
  rewrite (evalValues_all _ _ _ Hall), Hconv.
  assert (Hds : length (map datumExpr ds) <> 1%nat).
  { rewrite length_map, <- (Forall2_length _ _ _ Hall). exact Hlen. }
  unfold getStringVal.
  destruct (map datumExpr ds) as [|d1 [|d2 rest]]; cbn [length] in Hds;
    try reflexivity.
  contradiction Hds. reflexivity.
Qed.

(** X7. Every converter of this file checks the number of values before
    anything else: given no value or more than one, the generic string and
    integer converters, the time-zone converter and the timeout converter
    return the error "SET name takes only one argument" for their
    parameter, whatever the values are and whether or not they would
    evaluate. *)
Theorem X7_converters_reject_wrong_arity
    (DatumAsInt : EvalContext -> string -> TypedExpr -> result Z)
    (ctx : EvalContext) (varName : string) (values : list TypedExpr) :
  length values <> 1%nat ->
  getStringVal ctx varName values = Err (newSingleArgVarError varName)
  /\ getIntVal DatumAsInt ctx varName values
     = Err (newSingleArgVarError varName)
  /\ timeZoneVarGetStringVal ctx values
     = Err (newSingleArgVarError "timezone")
  /\ makeTimeoutVarGetter varName ctx values
     = Err (newSingleArgVarError varName).
Proof.
  intros Hlen.
  destruct values as [|v1 [|v2 rest]]; cbn [length] in Hlen;
    try (repeat split; reflexivity).
  contradiction Hlen. reflexivity.
Qed.

Lemma applyOnEachElem_length (applyFunc : applyFuncT)
    (elems elems' : list SessionData) err calls :
  applyOnEachElem applyFunc elems = Some (elems', err, calls) ->
  length elems' = length elems.
Proof.
  revert elems' err calls. induction elems as [|sd rest IH];
    intros elems' err calls.
  - intros [= <- _ _]. reflexivity.
  - cbn [applyOnEachElem].
    destruct (applyFunc {| data := sd |}) as [[[m [e|]] c]|];
      [| |discriminate].
    + intros [= <- _ _]. reflexivity.
    + destruct (applyOnEachElem applyFunc rest) as [[[rest' e'] c']|]
        eqn:Hrest; [|discriminate].
      intros [= <- _ _]. cbn [length]. f_equal. eapply IH. reflexivity.
Qed.

(** What the scoping rule leaves alone. *)
Lemma applyOnSessionDataMutators_frame (p p' : planner) (isLocal : bool)
    (applyFunc : applyFuncT) (err : option error) (calls : list call) :
  applyOnSessionDataMutators p isLocal applyFunc = Some (p', err, calls) ->
  length (sds (mutatorIterator p')) = length (sds (mutatorIterator p))
  /\ mutatorBase (mutatorIterator p') = mutatorBase (mutatorIterator p)
  /\ evalCtx p' = evalCtx p
  /\ telemetryCounters p' = telemetryCounters p
  /\ (isLocal && TxnImplicit (evalCtx p) = false -> notices p' = notices p).
Proof.
  unfold applyOnSessionDataMutators. destruct isLocal.
  - destruct (TxnImplicit (evalCtx p)).
    + intros [= <- _ _]. cbn. repeat split; try reflexivity. discriminate.
    + unfold applyOnTopMutator.
      destruct (last (sds (mutatorIterator p))) as [top|]; [|discriminate].
      destruct (applyFunc {| data := top |}) as [[[m e] c]|];
        [|discriminate].
      intros [= <- _ _]. cbn. rewrite length_insert. repeat split.
  - unfold applyOnEachMutatorError.
    destruct (applyOnEachElem applyFunc (sds (mutatorIterator p)))
      as [[[elems' e'] c']|] eqn:Heach; [|discriminate].
    intros [= <- _ _]. cbn.
    rewrite (applyOnEachElem_length _ _ _ _ _ Heach). repeat split.
Qed.

(** X8. The scoping rule never adds or removes a scope level, whatever
    function it applies and whether or not that function fails: the number
    of mutators is kept, and so are the evaluation context, the session
    defaults and settings and the telemetry counters; the notices change
    only for SET LOCAL in an implicit transaction. *)
Theorem X8_scoping_keeps_the_levels (p p' : planner) (isLocal : bool)
    (applyFunc : applyFuncT) (err : option error) (calls : list call) :
  applyOnSessionDataMutators p isLocal applyFunc = Some (p', err, calls) ->
  length (sds (mutatorIterator p')) = length (sds (mutatorIterator p))
  /\ mutatorBase (mutatorIterator p') = mutatorBase (mutatorIterator p)
  /\ evalCtx p' = evalCtx p
  /\ telemetryCounters p' = telemetryCounters p
  /\ (isLocal && TxnImplicit (evalCtx p) = false -> notices p' = notices p).
Proof.
  exact (applyOnSessionDataMutators_frame p p' isLocal applyFunc err calls).
Qed.

(** ** The timeout setters *)

(** When [validateTimeoutVar] accepts. *)
Lemma validateTimeoutVar_accepts (style : IntervalStyle)
    (timeString varName : string) (timeout : Z) :
  validateTimeoutVar style timeString varName = Ok timeout
  <-> exists interval,
        ParseDIntervalWithTypeMetadata style timeString millisecondMetadata
        = Ok interval
        /\ intervalToDuration interval = Ok timeout
        /\ 0 <= timeout.
Proof.
  unfold validateTimeoutVar. split.
  - destruct (ParseDIntervalWithTypeMetadata style timeString
                millisecondMetadata) as [interval|e]; [|discriminate].
    destruct (intervalToDuration interval) as [t|e] eqn:Hd; [|discriminate].
    destruct (Z.ltb_spec t 0); [discriminate|].
    intros [= <-]. exists interval. rewrite Hd. auto.
  - intros (interval & -> & -> & Hpos).
    destruct (Z.ltb_spec timeout 0); [lia|reflexivity].
Qed.

(** X9. [validateTimeoutVar] accepts a string exactly when the interval
    parser accepts it, the interval encodes to a duration and that duration
    is not negative; the duration is then the result. Zero is accepted. *)
Theorem X9_validateTimeoutVar_accepts (style : IntervalStyle)
    (timeString varName : string) (timeout : Z) :
  validateTimeoutVar style timeString varName = Ok timeout
  <-> exists interval,
        ParseDIntervalWithTypeMetadata style timeString millisecondMetadata
        = Ok interval
        /\ intervalToDuration interval = Ok timeout
        /\ 0 <= timeout.
Proof. exact (validateTimeoutVar_accepts style timeString varName timeout). Qed.

(** The three errors of [validateTimeoutVar] are value errors for its
    parameter and its string. *)
Lemma validateTimeoutVar_error (style : IntervalStyle)
    (timeString varName : string) (e : error) :
  validateTimeoutVar style timeString varName = Err e ->
  errorCode e = Some InvalidParameterValue
  /\ namesParameter e varName
  /\ offendingText e = Some timeString.
Proof.
  unfold validateTimeoutVar.
  destruct (ParseDIntervalWithTypeMetadata style timeString
              millisecondMetadata) as [interval|e1].
  - destruct (intervalToDuration interval) as [t|e2].
    + destruct (t <? 0); [|discriminate].
      intros [= <-]. repeat split.
    + intros [= <-]. repeat split.
  - intros [= <-]. repeat split.
Qed.

(** X10. A timeout setter either fails and leaves the mutator exactly as it
    was, or succeeds, stores in its own field the duration that
    [validateTimeoutVar] accepted, which is not negative, and leaves the
    other three timeouts, the location and the interval style as they
    were. *)
Theorem X10_timeout_setter_effect (t : timeoutVar)
    (m m' : sessionDataMutator) (s : string) (err : option error) :
  timeoutVarSet t m s = (m', err) ->
  match err with
  | Some _ => m' = m
  | None =>
      validateTimeoutVar (GetIntervalStyle (data m)) s (timeoutVarName t)
      = Ok (timeoutVarStored t (data m'))
      /\ 0 <= timeoutVarStored t (data m')
      /\ sameExcept t (data m') (data m)
  end.
Proof.
  rewrite timeoutVarSet_validate.
  destruct (validateTimeoutVar (GetIntervalStyle (data m)) s
              (timeoutVarName t)) as [timeout|e] eqn:Hv.
  - intros [= <- <-].
    assert (Hpos : 0 <= timeout).
    { apply validateTimeoutVar_accepts in Hv as (_ & _ & _ & Hpos).
      exact Hpos. }
    destruct t; cbn; (split; [reflexivity|]; split; [exact Hpos|]);
      (split; [reflexivity|]; split; [reflexivity|]);
      intros [] Hne; try reflexivity; contradiction Hne; reflexivity.
  - intros [= <- <-]. reflexivity.
Qed.

(** X11. Whatever makes a timeout setter fail (a string the parser
    rejects, an interval that does not encode, a negative duration), the
    error is a value error with the code for an invalid parameter value; it
    names the parameter of that setter and carries the string as given. *)
Theorem X11_timeout_setter_errors (t : timeoutVar)
    (m m' : sessionDataMutator) (s : string) (e : error) :
  timeoutVarSet t m s = (m', Some e) ->
  errorCode e = Some InvalidParameterValue
  /\ namesParameter e (timeoutVarName t)
  /\ offendingText e = Some s.
Proof.
  rewrite timeoutVarSet_validate.
  destruct (validateTimeoutVar (GetIntervalStyle (data m)) s
              (timeoutVarName t)) as [timeout|e'] eqn:Hv;
    intros [= <- <-].
  eapply validateTimeoutVar_error. eassumption.
Qed.

(** X12. Setters of two different timeouts do not interfere: applied in
    either order to the same mutator they report the same errors and leave
    the same session data. *)
Theorem X12_timeout_setters_commute (t1 t2 : timeoutVar)
    (m : sessionDataMutator) (s1 s2 : string) :
  t1 <> t2 ->
  let first1 := timeoutVarSet t1 m s1 in
  let then2 := timeoutVarSet t2 (fst first1) s2 in
  let first2 := timeoutVarSet t2 m s2 in
  let then1 := timeoutVarSet t1 (fst first2) s1 in
  fst then2 = fst then1
  /\ snd first1 = snd then1
  /\ snd first2 = snd then2.
Proof.
  intros Hne. cbv zeta. rewrite !timeoutVarSet_validate.
  unfold GetIntervalStyle.
  destruct (validateTimeoutVar (SDIntervalStyle (data m)) s1
              (timeoutVarName t1)) as [d1|e1] eqn:H1;
    destruct (validateTimeoutVar (SDIntervalStyle (data m)) s2
                (timeoutVarName t2)) as [d2|e2] eqn:H2;
    cbn [fst snd];
    destruct t1, t2; try (contradiction Hne; reflexivity);
    cbn [data SetStmtTimeout SetLockTimeout
         SetIdleInSessionTimeout SetIdleInTransactionSessionTimeout
         SDIntervalStyle timeoutVarName] in *;
    rewrite ?H1, ?H2; cbn [fst snd]; repeat split; reflexivity.
Qed.

(** X13. A timeout setter is idempotent: applying it a second time with the
    same string changes nothing and reports the same. *)
Theorem X13_timeout_setter_idempotent (t : timeoutVar)
    (m : sessionDataMutator) (s : string) :
  timeoutVarSet t (fst (timeoutVarSet t m s)) s = timeoutVarSet t m s.
Proof.
  rewrite !timeoutVarSet_validate. unfold GetIntervalStyle.
  destruct (validateTimeoutVar (SDIntervalStyle (data m)) s
              (timeoutVarName t)) as [d|e] eqn:Hv; cbn [fst].
  - destruct t;
      cbn [data SetStmtTimeout SetLockTimeout
           SetIdleInSessionTimeout SetIdleInTransactionSessionTimeout
           SDIntervalStyle timeoutVarName] in *;
      rewrite Hv; reflexivity.
  - rewrite Hv. reflexivity.
Qed.

(** ** Notices and counters of an execution *)

Lemma applyOnSessionDataMutators_notices (p p' : planner) (isLocal : bool)
    (applyFunc : applyFuncT) (err : option error) (calls : list call) :
  applyOnSessionDataMutators p isLocal applyFunc = Some (p', err, calls) ->
  notices p'
  = notices p
    ++ (if isLocal && TxnImplicit (evalCtx p) then [setLocalWarning] else []).
Proof.
  intros Happly.
  destruct (isLocal && TxnImplicit (evalCtx p)) eqn:Hc.
  - apply andb_true_iff in Hc as [-> Himp].
    unfold applyOnSessionDataMutators in Happly. rewrite Himp in Happly.
    injection Happly as <- _ _. reflexivity.
  - destruct (applyOnSessionDataMutators_frame _ _ _ _ _ _ Happly)
      as (_ & _ & _ & _ & Hn).
    rewrite (Hn Hc), app_nil_r. reflexivity.
Qed.

(** X14. What the client and the telemetry see of an execution on the
    generic setter path that returns: the counter of a deprecated parameter
    is incremented once and its warning buffered first, if the parameter is
    deprecated; the SET LOCAL warning follows if the statement is LOCAL, the
    transaction implicit and the value was resolved; nothing else is
    buffered or counted, and the number of scope levels is unchanged. *)
Theorem X14_generic_path_notices (n n' : setVarNode) (p p' : planner)
    (err : option error) (calls : list call) :
  RuntimeSet (v n) = None ->
  SetWithPlanner (v n) = None ->
  startExec n p = Some (n', p', err, calls) ->
  let deprecated := bool_decide (name n ∈ DummyVars) in
  let resolved :=
    match snd (resolveValue n (noteDummyVar n p)) with
    | Ok _ => true
    | Err _ => false
    end in
  telemetryCounters p'
  = telemetryCounters p
    ++ (if deprecated then [DummySessionVarValueCounter (name n)] else [])
  /\ notices p'
     = notices p
       ++ (if deprecated then [dummyVarWarning (name n)] else [])
       ++ (if local n && TxnImplicit (evalCtx p) && resolved
           then [setLocalWarning] else [])
  /\ length (sds (mutatorIterator p')) = length (sds (mutatorIterator p)).
Proof.
  intros Hr Hp Hexec deprecated resolved.
  assert (Hdummy :
            telemetryCounters (noteDummyVar n p)
            = telemetryCounters p
              ++ (if deprecated then [DummySessionVarValueCounter (name n)]
                  else [])
            /\ notices (noteDummyVar n p)
               = notices p
                 ++ (if deprecated then [dummyVarWarning (name n)] else [])).
  { unfold noteDummyVar, deprecated.
    destruct (decide (name n ∈ DummyVars)) as [Hin|Hin].
    - rewrite (bool_decide_eq_true_2 _ Hin). split; reflexivity.
    - rewrite (bool_decide_eq_false_2 _ Hin), !app_nil_r.
      split; reflexivity. }
  destruct Hdummy as (Htel & Hnot).
  unfold startExec in Hexec. unfold resolved.
  destruct (resolveValue n (noteDummyVar n p)) as [n0 [strVal|e]] eqn:Hres;
    cbn [snd].
  - destruct (resolveValue_fields _ _ _ _ Hres) as (Hv & Hl & _).
    unfold dispatchSetter in Hexec. rewrite Hv, Hr, Hp, Hl in Hexec.
    destruct (applyOnSessionDataMutators (noteDummyVar n p) (local n)
                (setterClosure n0 strVal))
      as [[[p1 e1] calls1]|] eqn:Happly; [|discriminate].
    injection Hexec as <- <- <- <-.
    destruct (applyOnSessionDataMutators_frame _ _ _ _ _ _ Happly)
      as (Hlen & _ & _ & Htel1 & _).
    pose proof (applyOnSessionDataMutators_notices _ _ _ _ _ _ Happly)
      as Hnot1.
    rewrite noteDummyVar_evalCtx in Hnot1.
    rewrite noteDummyVar_iterator in Hlen.
    rewrite Htel1, Htel, Hnot1, Hnot, andb_true_r, <- app_assoc.
    repeat split; try reflexivity. exact Hlen.
  - injection Hexec as <- <- <- <-.
    rewrite Htel, Hnot, andb_false_r, app_nil_r, noteDummyVar_iterator.
    repeat split; reflexivity.
Qed.

(** ** The time zone *)

Lemma int64_range (z : Z) : inInt64 (int64 z) = true.
Proof.
  apply inInt64_bounds. unfold int64, MinInt64, MaxInt64.
  pose proof (Z.mod_pos_bound (z + 2 ^ 63) (2 ^ 64)). lia.
Qed.

Lemma timeZoneSwitch_int (value : TypedExpr) (i : Z) :
  timeZoneSwitch value (DInt i) = Ok (None, int64 (i * 3600)).
Proof.
  unfold timeZoneSwitch. cbn [UnwrapDatum].
  rewrite int64_mul_wrap. do 3 f_equal. lia.
Qed.

Lemma timeZoneSwitch_interval (value : TypedExpr) (dur : Duration) :
  inInt64 (totalNanos dur) = true ->
  timeZoneSwitch value (DInterval dur)
  = Ok (None, Z.quot (totalNanos dur) Second).
Proof.
  intros Hr. unfold timeZoneSwitch, Encode. cbn [UnwrapDatum].
  fold (totalNanos dur). rewrite Hr. reflexivity.
Qed.

(** X15. [timeZoneVarSet] either fails, with the value error for
    "TimeZone" that carries the string and the cause, and leaves the
    mutator as it was; or it stores the location the lookup found and
    leaves the interval style and the four timeouts as they were. *)
Theorem X15_timeZoneVarSet_effect (m m' : sessionDataMutator) (s : string)
    (err : option error) :
  timeZoneVarSet m s = (m', err) ->
  match TimeZoneStringToLocation s with
  | Err cause =>
      m' = m
      /\ err = Some (wrapSetVarError "TimeZone" s "%v" [ArgError cause])
  | Ok loc =>
      err = None
      /\ SDLocation (data m') = loc
      /\ sameButLocation (data m') (data m)
  end.
Proof.
  unfold timeZoneVarSet.
  destruct (TimeZoneStringToLocation s) as [loc|cause]; intros [= <- <-].
  - split; [reflexivity|]. split; [reflexivity|].
    split; [reflexivity|]. intros []; reflexivity.
  - split; reflexivity.
Qed.

(** The errors of the type switch of the time-zone converter. *)
Lemma timeZoneSwitch_error (value : TypedExpr) (d : datum) (e : error) :
  timeZoneSwitch value d = Err e ->
  errorCode e = Some InvalidParameterValue
  /\ namesParameter e "timezone"
  /\ offendingText e = Some (ExprString value).
Proof.
  unfold timeZoneSwitch.
  destruct (UnwrapDatum d) as [location|dur|i|f|dec|b|w oid].
  - destruct (TimeZoneStringToLocation location); [discriminate|].
    intros [= <-]. repeat split.
  - destruct (Encode dur) as [[[offset months] days]|]; [discriminate|].
    intros [= <-]. repeat split.
  - discriminate.
  - discriminate.
  - destruct (ErrDecimal_Mul MakeErrDecimal (apdNew 60 0) (apdNew 60 0)
                (apdNew 60 0)) as [ed1 sixty1].
    destruct (ErrDecimal_Mul ed1 sixty1 sixty1 dec) as [ed2 sixty2].
    destruct (ErrDecimal_Int64 ed2 sixty2) as [ed3 offset].
    destruct (EDErr ed3); [|discriminate].
    intros [= <-]. repeat split.
  - intros [= <-]. repeat split.
  - intros [= <-]. repeat split.
Qed.

(** X16. When its one value evaluates, every error of the time-zone
    converter (a name the lookup does not know, an interval that does not
    encode, a decimal that does not fit, a value of another type) is a
    value error with the code for an invalid parameter value; it names
    "timezone" and carries the text of the value. Integers and floats never
    make it fail. *)
Theorem X16_time_zone_converter_errors (ctx : EvalContext)
    (value : TypedExpr) (d : datum) :
  Eval value ctx = Ok d ->
  (forall e,
      timeZoneVarGetStringVal ctx [value] = Err e ->
      errorCode e = Some InvalidParameterValue
      /\ namesParameter e "timezone"
      /\ offendingText e = Some (ExprString value))
  /\ ((exists i, UnwrapDatum d = DInt i) \/ (exists f, UnwrapDatum d = DFloat f)
      -> exists s, timeZoneVarGetStringVal ctx [value] = Ok s).
Proof.
  intros He. unfold timeZoneVarGetStringVal, timeZoneVarLocation.
  rewrite He. split.
  - intros e.
    destruct (timeZoneSwitch value d) as [[[loc|] offset]|e'] eqn:Hs;
      try discriminate.
    intros [= <-]. eapply timeZoneSwitch_error. eassumption.
  - unfold timeZoneSwitch.
    intros [(i & ->)|(f & ->)]; eexists; reflexivity.
Qed.

(** X17. An integer number of hours and the decimal of the same value
    agree as long as the seconds fit a signed 64-bit integer. When they do
    not, the decimal is refused with the overflow error while the integer
    is accepted with a wrapped offset, which is not the number of seconds
    asked for. *)
Theorem X17_integer_wraps_decimal_refuses (value : TypedExpr) (i : Z) :
  (inInt64 (i * 3600) = true ->
   timeZoneSwitch value (DInt i) = Ok (None, i * 3600)
   /\ timeZoneSwitch value (DDecimal (apdNew i 0)) = Ok (None, i * 3600))
  /\ (inInt64 (i * 3600) = false ->
      (exists wrapped,
          timeZoneSwitch value (DInt i) = Ok (None, wrapped)
          /\ wrapped <> i * 3600)
      /\ exists sixty,
           timeZoneSwitch value (DDecimal (apdNew i 0))
           = Err (wrapSetVarError "timezone" (ExprString value)
                    "time zone value %s would overflow an int64"
                    [ArgDecimal sixty])).
Proof.
  assert (Hval : forall n,
             decimalHoursAreSeconds (apdNew i 0) n <-> n = i * 3600).
  { intros n. unfold decimalHoursAreSeconds, signedCoeff.
    cbn [apdNew DForm Negative Coeff Exponent].
    change (Z.max 0 (- 0)) with 0. change (Z.max 0 0) with 0.
    rewrite !Z.pow_0_r.
    destruct (Z.ltb_spec i 0); split.
    - intros [_ Hn]. lia.
    - intros ->. split; [reflexivity|lia].
    - intros [_ Hn]. lia.
    - intros ->. split; [reflexivity|lia]. }
  split.
  - intros Hr. split.
    + rewrite timeZoneSwitch_int, (int64_inRange _ Hr). reflexivity.
    + apply (timeZoneSwitch_decimal_exact _ _ (apdNew i 0));
        [reflexivity|apply Hval; reflexivity|exact Hr].
  - intros Hr. split.
    + exists (int64 (i * 3600)). split; [apply timeZoneSwitch_int|].
      intros Heq. pose proof (int64_range (i * 3600)) as Hin.
      rewrite Heq, Hr in Hin. discriminate.
    + apply (timeZoneSwitch_decimal_overflow _ _ (apdNew i 0));
        [reflexivity|].
      intros n Hn Hdec. apply Hval in Hdec. subst n.
      rewrite Hr in Hn. discriminate.
Qed.

(** X18. The offset of an interval is truncated toward zero, so negating
    the interval negates the offset: an interval of -1.5 seconds gives -1,
    where one of 1.5 seconds gives 1. *)
Theorem X18_negated_interval_negated_offset (value : TypedExpr)
    (dur : Duration) :
  inInt64 (totalNanos dur) = true ->
  inInt64 (- totalNanos dur) = true ->
  exists offset,
    timeZoneSwitch value (DInterval dur) = Ok (None, offset)
    /\ timeZoneSwitch value (DInterval (negDuration dur))
       = Ok (None, - offset)
    /\ Z.abs offset * Second <= Z.abs (totalNanos dur)
    /\ Z.abs (totalNanos dur) < (Z.abs offset + 1) * Second.
Proof.
  intros Hr Hneg.
  assert (Htot : totalNanos (negDuration dur) = - totalNanos dur).
  { unfold totalNanos, negDuration. cbn [Months Days nanos]. ring. }
  exists (Z.quot (totalNanos dur) Second). split; [|split].
  - apply timeZoneSwitch_interval. exact Hr.
  - rewrite timeZoneSwitch_interval by (rewrite Htot; exact Hneg).
    rewrite Htot, Z.quot_opp_l by (unfold Second; lia). reflexivity.
  - unfold Second.
    pose proof (Z.quot_rem' (Z.abs (totalNanos dur)) 1000000000) as Hqa.
    pose proof (Z.quot_abs (totalNanos dur) 1000000000 ltac:(lia)) as Habs.
    change (Z.abs 1000000000) with 1000000000 in Habs.
    rewrite Habs in Hqa.
    pose proof (Z.rem_bound_pos (Z.abs (totalNanos dur)) 1000000000
                  (Z.abs_nonneg _) ltac:(lia)) as Hra.
    lia.
Qed.

(** When the decimal branch of the time-zone converter succeeds. *)
Lemma timeZoneSwitch_decimal_iff (value : TypedExpr) (dec : Decimal)
    (n : Z) :
  timeZoneSwitch value (DDecimal dec) = Ok (None, n)
  <-> decimalHoursAreSeconds dec n /\ inInt64 n = true.
Proof.
  split.
  - intros Hs. destruct (DForm dec) eqn:Hf.
    + rewrite (timeZoneSwitch_decimal_finite value (DDecimal dec) dec
                 eq_refl Hf) in Hs.
      destruct (Decimal_Int64 (scaledToSeconds dec)) as [k|e] eqn:Hint;
        [|discriminate].
      injection Hs as <-.
      apply Decimal_Int64_sound in Hint as (_ & Hk & Hr).
      split; [apply (scaledToSeconds_integer dec k Hf); assumption
             |assumption].
    + destruct (timeZoneSwitch_decimal_overflow value (DDecimal dec) dec
                  eq_refl) as (sixty & Herr).
      * intros k _ [Hfin _]. rewrite Hf in Hfin. discriminate.
      * rewrite Herr in Hs. discriminate.
    + destruct (timeZoneSwitch_decimal_overflow value (DDecimal dec) dec
                  eq_refl) as (sixty & Herr).
      * intros k _ [Hfin _]. rewrite Hf in Hfin. discriminate.
      * rewrite Herr in Hs. discriminate.
  - intros [Hn Hr].
    apply (timeZoneSwitch_decimal_exact value (DDecimal dec) dec);
      [reflexivity| |]; assumption.
Qed.

Lemma trailing_zero_same_seconds (dec : Decimal) (n : Z) :
  decimalHoursAreSeconds (withTrailingZero dec) n
  <-> decimalHoursAreSeconds dec n.
Proof.
  unfold decimalHoursAreSeconds, signedCoeff, withTrailingZero.
  cbn [DForm Negative Exponent Coeff].
  assert (Hs : (if Negative dec then - (10 * Coeff dec) else 10 * Coeff dec)
               = 10 * (if Negative dec then - Coeff dec else Coeff dec))
    by (destruct (Negative dec); lia).
  rewrite Hs. set (c := if Negative dec then - Coeff dec else Coeff dec).
  destruct (Z.le_gt_cases 1 (Exponent dec)) as [He|He].
  - rewrite (Z.max_r 0 (Exponent dec - 1)), (Z.max_l 0 (- (Exponent dec - 1))),
      (Z.max_r 0 (Exponent dec)), (Z.max_l 0 (- Exponent dec)) by lia.
    assert (Hp : 10 ^ Exponent dec = 10 * 10 ^ (Exponent dec - 1)).
    { rewrite <- Z.pow_succ_r by lia. f_equal. lia. }
    rewrite Hp. generalize (10 ^ (Exponent dec - 1)). intros pw.
    rewrite Z.pow_0_r.
    split; intros [Hf Hn]; (split; [exact Hf|]); lia.
  - rewrite (Z.max_l 0 (Exponent dec - 1)), (Z.max_r 0 (- (Exponent dec - 1))),
      (Z.max_l 0 (Exponent dec)), (Z.max_r 0 (- Exponent dec)) by lia.
    assert (Hp : 10 ^ (- (Exponent dec - 1)) = 10 * 10 ^ (- Exponent dec)).
    { rewrite <- Z.pow_succ_r by lia. f_equal. lia. }
    rewrite Hp. generalize (10 ^ (- Exponent dec)). intros pw.
    rewrite Z.pow_0_r.
    split; intros [Hf Hn]; (split; [exact Hf|]); lia.
Qed.

(** X19. The offset of a decimal time zone depends on the value of the
    decimal and not on how it is written: with one more trailing zero (the
    coefficient times ten, the exponent one less, as 5.0 for 5) the
    converter accepts exactly the same offsets. *)
Theorem X19_trailing_zero_same_offset (value : TypedExpr) (dec : Decimal)
    (n : Z) :
  timeZoneSwitch value (DDecimal (withTrailingZero dec)) = Ok (None, n)
  <-> timeZoneSwitch value (DDecimal dec) = Ok (None, n).
Proof.
  rewrite !timeZoneSwitch_decimal_iff, trailing_zero_same_seconds.
  reflexivity.
Qed.

(** X20. SET SESSION of the time zone, end to end, for a parameter whose
    converter is [timeZoneVarGetStringVal] and whose setter is
    [timeZoneVarSet]: when the value evaluates, the converter resolves it to
    a zone string and the lookup of the setter reads that string as a
    location, [startExec] stores that location on every scope level, leaves
    the interval style and the timeouts of every level as they were, calls
    the setter once for each level and returns no error. The converter sees
    the evaluated value, not the expression. *)
Theorem X20_set_time_zone_end_to_end (n : setVarNode) (p : planner)
    (value : TypedExpr) (d : datum) (s : string) (loc : Location) :
  GetStringVal (v n) = Some timeZoneVarGetStringVal ->
  Set_ (v n) = Some timeZoneVarSet ->
  RuntimeSet (v n) = None ->
  SetWithPlanner (v n) = None ->
  local n = false ->
  typedValues n = Some [value] ->
  Eval value (evalCtx p) = Ok d ->
  timeZoneVarGetStringVal (evalCtx p) [datumExpr d] = Ok s ->
  TimeZoneStringToLocation s = Ok loc ->
  exists p',
    startExec n p
    = Some (withTypedValues n (Some [datumExpr d]), p', None,
            repeat (CallSet s) (length (sds (mutatorIterator p))))
    /\ sds (mutatorIterator p')
       = map (fun sd => data (SetLocation {| data := sd |} loc))
           (sds (mutatorIterator p))
    /\ Forall2 (fun sd' sd => SDLocation sd' = loc /\ sameButLocation sd' sd)
         (sds (mutatorIterator p')) (sds (mutatorIterator p)).
Proof.
  intros Hconv Hset Hr Hp Hl Htv He Hs Hloc.
  assert (Hres : resolveValue n (noteDummyVar n p)
                 = (withTypedValues n (Some [datumExpr d]), Ok s)).
  { unfold resolveValue. rewrite Htv, noteDummyVar_evalCtx.
    cbn [evalValues]. rewrite He, Hconv, Hs. reflexivity. }
  assert (Happly : forall sd,
             applySet timeZoneVarSet s sd
             = data (SetLocation {| data := sd |} loc)
             /\ setErr timeZoneVarSet s sd = None).
  { intros sd. unfold applySet, setErr, timeZoneVarSet. rewrite Hloc.
    split; reflexivity. }
  rewrite (startExec_generic _ _ _ _ Hr Hp Hres), Hl.
  unfold applyOnSessionDataMutators, applyOnEachMutatorError.
  rewrite noteDummyVar_iterator.
  rewrite (applyOnEachElem_all n s timeZoneVarSet _ Hset)
    by (apply Forall_forall; intros sd _; apply Happly).
  eexists. split; [reflexivity|]. cbn [mutatorIterator withMutatorIterator
                                       sds withSds].
  assert (Hmap : map (applySet timeZoneVarSet s) (sds (mutatorIterator p))
                 = map (fun sd => data (SetLocation {| data := sd |} loc))
                     (sds (mutatorIterator p))).
  { apply map_ext. intros sd. apply Happly. }
  rewrite Hmap. split; [reflexivity|]. clear Hmap.
  induction (sds (mutatorIterator p)) as [|sd rest IH]; cbn [map].
  - constructor.
  - constructor; [|exact IH].
    split; [reflexivity|]. split; [reflexivity|]. intros []; reflexivity.
Qed.

(** X21. For the timeout converter an integer is a number of milliseconds:
    while the nanoseconds fit a signed 64-bit integer, the integer [i] and
    the interval of [i] milliseconds give the same string. An integer never
    makes the converter fail; outside that range the duration wraps around
    modulo 2^64. *)
Theorem X21_integer_is_milliseconds (varName : string) (ctx : EvalContext)
    (i : Z) :
  (inInt64 (i * Millisecond) = true ->
   makeTimeoutVarGetter varName ctx [datumExpr (DInt i)]
   = Ok (durationString (i * Millisecond))
   /\ makeTimeoutVarGetter varName ctx
        [datumExpr (DInterval (subDay (i * Millisecond)))]
      = Ok (durationString (i * Millisecond)))
  /\ exists wrapped,
       makeTimeoutVarGetter varName ctx [datumExpr (DInt i)]
       = Ok (durationString wrapped)
       /\ inInt64 wrapped = true
       /\ (wrapped - i * Millisecond) mod 2 ^ 64 = 0.
Proof.
  split.
  - intros Hr. split.
    + unfold makeTimeoutVarGetter. cbn [Eval datumExpr UnwrapDatum].
      rewrite (int64_inRange _ Hr). reflexivity.
    + unfold makeTimeoutVarGetter, intervalToDuration, Encode.
      cbn [Eval datumExpr UnwrapDatum subDay Months Days nanos].
      replace (0 * nanosInMonth + 0 * nanosInDay + i * Millisecond)
        with (i * Millisecond) by lia.
      rewrite Hr. reflexivity.
  - exists (int64 (i * Millisecond)). split; [reflexivity|].
    split; [apply int64_range|].
    unfold int64.
    rewrite (Z.mod_eq (i * Millisecond + 2 ^ 63) (2 ^ 64)) by lia.
    set (q := (i * Millisecond + 2 ^ 63) / 2 ^ 64).
    replace (i * Millisecond + 2 ^ 63 - 2 ^ 64 * q - 2 ^ 63
             - i * Millisecond) with ((- q) * 2 ^ 64) by ring.
    apply Z_mod_mult.
Qed.

End MoreProperties.

(** * The further properties on the fixtures *)

(** SET LOCAL Statement_Timeout = '5s', 'x' compiles: the name is folded
    to lower case, the scope is kept and both values are type-checked. *)
Lemma X1_witness_two_values :
  exists plan,
    SetVar (H := Fixture.engine) Fixture.oneLevel
      Fixture2.setTimeoutTwoValues = Ok plan
    /\ name plan = "statement_timeout"
    /\ local plan = true
    /\ ~ noSetter (v plan)
    /\ typedValues plan
       = Some [Fixture.literal "5s"; Fixture.literal "x"].
Proof.
  exists (Fixture.assign "statement_timeout" true Fixture.statementTimeoutVar
            [Fixture.literal "5s"; Fixture.literal "x"]).
  assert (Hset : SetVar (H := Fixture.engine) Fixture.oneLevel
                   Fixture2.setTimeoutTwoValues
                 = Ok (Fixture.assign "statement_timeout" true
                         Fixture.statementTimeoutVar
                         [Fixture.literal "5s"; Fixture.literal "x"]))
    by reflexivity.
  destruct (X1_SetVar_plan_shape (H := Fixture.engine) _ _ _ Hset)
    as (_ & Hname & Hlocal & _ & Hsetter & _).
  split; [exact Hset|]. split; [exact Hname|]. split; [exact Hlocal|].
  split; [exact Hsetter|reflexivity].
Defined.

(** The plan of that statement executes on a session of five levels: the
    execution returns (with the error of the converter, which takes one
    value). *)
Lemma X2_witness_two_values_execute :
  exists plan n' p'' err calls,
    SetVar (H := Fixture.engine) Fixture.oneLevel
      Fixture2.setTimeoutTwoValues = Ok plan
    /\ startExec (H := Fixture.engine) plan Fixture.fiveLevels
       = Some (n', p'', err, calls).
Proof.
  assert (Hset : SetVar (H := Fixture.engine) Fixture.oneLevel
                   Fixture2.setTimeoutTwoValues
                 = Ok (Fixture.assign "statement_timeout" true
                         Fixture.statementTimeoutVar
                         [Fixture.literal "5s"; Fixture.literal "x"]))
    by reflexivity.
  destruct (X2_compiled_plan_executes (H := Fixture.engine) Fixture.oneLevel
              Fixture.fiveLevels _ _ Hset ltac:(discriminate))
    as (n' & p'' & err & calls & Hexec).
  eexists. exists n', p'', err, calls. split; [exact Hset|exact Hexec].
Defined.


(** SET lock_timeout = '5s', nosuchfn(), alsobad(): the error is the one of
    the second value, the first that does not type-check. *)
Lemma X4_witness_second_value_ill_typed :
  SetVar (H := Fixture.engine) Fixture.oneLevel Fixture2.setSecondIllTyped
  = Err (wrapSetVarError "lock_timeout" "nosuchfn()" "%v"
           [ArgError (Foreign "unknown function")]).
Proof.
  apply (X4_first_type_error_wins (H := Fixture.engine) Fixture.oneLevel
           Fixture2.setSecondIllTyped true Fixture.lockTimeoutVar
           [StrVal "5s"] [OtherExpr "alsobad()"] (OtherExpr "nosuchfn()")
           (Foreign "unknown function")).
  - discriminate.
  - reflexivity.
  - reflexivity.
  - reflexivity.
  - constructor; [|constructor]. eexists. reflexivity.
  - reflexivity.
Defined.

(** SET plain = 'a', 1/0, 'c': the first value is replaced by what it
    evaluates to, the second and the third are left as they were, and no
    setter is called. *)
Lemma X5_witness_second_value_fails :
  startExec (H := Fixture.engine) Fixture2.setPlainSecondFails
    Fixture.twoLevels
  = Some (Fixture.assign "plain" false Fixture2.plainVar
            [datumExpr (H := Fixture.engine) (DString "a");
             Fixture.failing; Fixture.literal "c"],
          Fixture.twoLevels, Some (Foreign "division by zero"), []).
Proof.
  apply (X5_evaluation_fails_fast (H := Fixture.engine)
           Fixture2.setPlainSecondFails Fixture.twoLevels
           [Fixture.literal "a"] [Fixture.literal "c"] [DString "a"]
           Fixture.failing (Foreign "division by zero")).
  - reflexivity.
  - constructor; [reflexivity|constructor].
  - reflexivity.
Defined.

(** SET plain = 'a', 'b': both values evaluate, and the default converter
    refuses the two of them. *)
Lemma X6_witness_two_values :
  startExec (H := Fixture.engine) Fixture2.setPlainTwoValues
    Fixture.twoLevels
  = Some (Fixture.assign "plain" false Fixture2.plainVar
            [datumExpr (H := Fixture.engine) (DString "a");
             datumExpr (H := Fixture.engine) (DString "b")],
          Fixture.twoLevels, Some (newSingleArgVarError "plain"), []).
Proof.
  apply (X6_generic_converter_arity (H := Fixture.engine)
           Fixture2.setPlainTwoValues Fixture.twoLevels
           [Fixture.literal "a"; Fixture.literal "b"]
           [DString "a"; DString "b"]).
  - reflexivity.
  - reflexivity.
  - repeat constructor.
  - discriminate.
Defined.

(** No value at all and two values are refused alike by the converters. *)
Lemma X7_witness_none_and_two :
  timeZoneVarGetStringVal (H := Fixture.engine) {| TxnImplicit := false |} []
  = Err (newSingleArgVarError "timezone")
  /\ makeTimeoutVarGetter (H := Fixture.engine) "lock_timeout"
       {| TxnImplicit := false |} [Fixture.literal "1s"; Fixture.literal "2s"]
     = Err (newSingleArgVarError "lock_timeout")
  /\ getIntVal (fun _ _ _ => Ok 0) {| TxnImplicit := false |} "port"
       [Fixture.literal "1"; Fixture.literal "2"]
     = Err (newSingleArgVarError "port").
Proof.
  split; [|split].
  - apply (X7_converters_reject_wrong_arity (H := Fixture.engine)
             (fun _ _ _ => Ok 0) {| TxnImplicit := false |} "x" []).
    discriminate.
  - apply (X7_converters_reject_wrong_arity (H := Fixture.engine)
             (fun _ _ _ => Ok 0) {| TxnImplicit := false |} "lock_timeout"
             [Fixture.literal "1s"; Fixture.literal "2s"]).
    discriminate.
  - apply (X7_converters_reject_wrong_arity (H := Fixture.engine)
             (fun _ _ _ => Ok 0) {| TxnImplicit := false |} "port"
             [Fixture.literal "1"; Fixture.literal "2"]).
    discriminate.
Defined.

(** The picky setter applied LOCAL in an explicit transaction with two
    levels: two levels remain, and no notice is emitted. *)
Lemma X8_witness_local_two_levels :
  exists p' err calls,
    applyOnSessionDataMutators Fixture.twoLevels true
      (setterClosure Fixture.setPickyLocal "abc")
    = Some (p', err, calls)
    /\ length (sds (mutatorIterator p')) = 2%nat
    /\ notices p' = [].
Proof.
  do 3 eexists. split; [reflexivity|].
  destruct (X8_scoping_keeps_the_levels Fixture.twoLevels _ true
              (setterClosure Fixture.setPickyLocal "abc") _ _ eq_refl)
    as (Hlen & _ & _ & _ & Hnotices).
  split; [exact Hlen|]. apply Hnotices. reflexivity.
Defined.

(** '5s' is a valid lock timeout of 5 * 10^9 nanoseconds. *)
Lemma X9_witness_five_seconds :
  validateTimeoutVar (H := Fixture.engine) IntervalStyle_POSTGRES "5s"
    "lock_timeout"
  = Ok (5 * Second).
Proof.
  apply (X9_validateTimeoutVar_accepts (H := Fixture.engine)
           IntervalStyle_POSTGRES "5s" "lock_timeout" (5 * Second)).
  exists (subDay (5 * Second)).
  split; [reflexivity|]. split; [reflexivity|]. unfold Second. lia.
Defined.

(** lock_timeout = '5s' on a level that had 7: the lock timeout becomes
    5 seconds and nothing else changes. *)
Lemma X10_witness_lock_timeout_five_seconds :
  let m' := fst (timeoutVarSet (H := Fixture.engine) LockTimeoutVar
                   {| data := Fixture.level 7 |} "5s") in
  LockTimeout (data m') = 5 * Second
  /\ 0 <= LockTimeout (data m')
  /\ sameExcept LockTimeoutVar (data m') (Fixture.level 7).
Proof.
  intros m'.
  destruct (X10_timeout_setter_effect (H := Fixture.engine) LockTimeoutVar
              {| data := Fixture.level 7 |} m' "5s" None eq_refl)
    as (_ & Hpos & Hsame).
  split; [reflexivity|]. split; [exact Hpos|exact Hsame].
Defined.

(** statement_timeout = 'soon' is refused with a value error about
    statement_timeout that quotes 'soon'. *)
Lemma X11_witness_unparsable_timeout :
  exists e,
    timeoutVarSet (H := Fixture.engine) StatementTimeout
      {| data := Fixture.level 7 |} "soon"
    = ({| data := Fixture.level 7 |}, Some e)
    /\ errorCode e = Some InvalidParameterValue
    /\ namesParameter e "statement_timeout"
    /\ offendingText e = Some "soon".
Proof.
  eexists. split.
  - reflexivity.
  - apply (X11_timeout_setter_errors (H := Fixture.engine) StatementTimeout
             {| data := Fixture.level 7 |} {| data := Fixture.level 7 |}
             "soon").
    reflexivity.
Defined.

(** statement_timeout = '5s' and lock_timeout = '-1' in either order: the
    same session data, and the lock timeout is refused both times. *)
Lemma X12_witness_statement_and_lock :
  fst (timeoutVarSet (H := Fixture.engine) LockTimeoutVar
         (fst (timeoutVarSet (H := Fixture.engine) StatementTimeout
                 {| data := Fixture.level 7 |} "5s")) "-1")
  = fst (timeoutVarSet (H := Fixture.engine) StatementTimeout
           (fst (timeoutVarSet (H := Fixture.engine) LockTimeoutVar
                   {| data := Fixture.level 7 |} "-1")) "5s")
  /\ snd (timeoutVarSet (H := Fixture.engine) LockTimeoutVar
            {| data := Fixture.level 7 |} "-1")
     = snd (timeoutVarSet (H := Fixture.engine) LockTimeoutVar
              (fst (timeoutVarSet (H := Fixture.engine) StatementTimeout
                      {| data := Fixture.level 7 |} "5s")) "-1").
Proof.
  destruct (X12_timeout_setters_commute (H := Fixture.engine)
              StatementTimeout LockTimeoutVar {| data := Fixture.level 7 |}
              "5s" "-1" ltac:(discriminate))
    as (Hdata & _ & Herr).
  split; [exact Hdata|exact Herr].
Defined.

(** Setting the idle timeout to '250ms' twice is setting it once. *)
Lemma X13_witness_twice :
  timeoutVarSet (H := Fixture.engine) IdleInSessionTimeoutVar
    (fst (timeoutVarSet (H := Fixture.engine) IdleInSessionTimeoutVar
            {| data := Fixture.level 7 |} "250ms")) "250ms"
  = timeoutVarSet (H := Fixture.engine) IdleInSessionTimeoutVar
      {| data := Fixture.level 7 |} "250ms".
Proof.
  exact (X13_timeout_setter_idempotent (H := Fixture.engine)
           IdleInSessionTimeoutVar {| data := Fixture.level 7 |} "250ms").
Defined.

(** SET LOCAL enable_seqscan = 'on' outside a transaction block: one
    telemetry counter, the warning of the deprecated parameter and then the
    warning of SET LOCAL; SET picky = 'abc' emits nothing. *)
Lemma X14_witness_notices :
  (exists n' p',
      startExec (H := Fixture.engine) Fixture.setLocalSeqscan
        Fixture.implicitOneLevel
      = Some (n', p', None, [])
      /\ telemetryCounters p' = ["dummy.enable_seqscan"]
      /\ notices p' = [dummyVarWarning "enable_seqscan"; setLocalWarning])
  /\ (exists n' p' err calls,
         startExec (H := Fixture.engine) Fixture.setPicky Fixture.fiveLevels
         = Some (n', p', err, calls)
         /\ telemetryCounters p' = []
         /\ notices p' = []).
Proof.
  split.
  - do 2 eexists. split; [reflexivity|].
    destruct (X14_generic_path_notices (H := Fixture.engine)
                Fixture.setLocalSeqscan _ Fixture.implicitOneLevel _ None []
                eq_refl eq_refl eq_refl)
      as (Htel & Hnot & _).
    split; [exact Htel|exact Hnot].
  - do 4 eexists. split; [reflexivity|].
    destruct (X14_generic_path_notices (H := Fixture.engine)
                Fixture.setPicky _ Fixture.fiveLevels _ _ _
                eq_refl eq_refl eq_refl)
      as (Htel & Hnot & _).
    split; [exact Htel|exact Hnot].
Defined.

(** With a lookup that knows UTC only, 'Mars/Olympus' is refused and the
    mutator is left alone; 'UTC' is stored. *)
Lemma X15_witness_unknown_zone :
  timeZoneVarSet (H := Fixture2.utcOnly)
    {| data := Fixture.level 1 |} "Mars/Olympus"
  = ({| data := Fixture.level 1 |},
     Some (wrapSetVarError "TimeZone" "Mars/Olympus" "%v"
             [ArgError (Foreign "unknown time zone")]))
  /\ SDLocation
       (data (fst (timeZoneVarSet (H := Fixture2.utcOnly)
                     {| data := Fixture.level 1 |} "UTC")))
     = NamedZone "UTC".
Proof.
  split.
  - destruct (X15_timeZoneVarSet_effect (H := Fixture2.utcOnly)
                {| data := Fixture.level 1 |}
                (fst (timeZoneVarSet (H := Fixture2.utcOnly)
                        {| data := Fixture.level 1 |} "Mars/Olympus"))
                "Mars/Olympus"
                (snd (timeZoneVarSet (H := Fixture2.utcOnly)
                        {| data := Fixture.level 1 |} "Mars/Olympus"))
                eq_refl) as (Hm & Herr).
    apply injective_projections; [exact Hm|exact Herr].
  - destruct (X15_timeZoneVarSet_effect (H := Fixture2.utcOnly)
                {| data := Fixture.level 1 |}
                (fst (timeZoneVarSet (H := Fixture2.utcOnly)
                        {| data := Fixture.level 1 |} "UTC"))
                "UTC" None eq_refl) as (_ & Hloc & _).
    exact Hloc.
Defined.

(** SET timezone = 'Mars/Olympus' with that lookup: a value error about
    timezone that quotes the value; an integer is always accepted. *)
Lemma X16_witness_unknown_zone :
  (exists e,
      timeZoneVarGetStringVal (H := Fixture2.utcOnly)
        {| TxnImplicit := false |} [Fixture.literal "Mars/Olympus"]
      = Err e
      /\ errorCode e = Some InvalidParameterValue
      /\ offendingText e = Some "'Mars/Olympus'")
  /\ exists s,
       timeZoneVarGetStringVal (H := Fixture2.utcOnly)
         {| TxnImplicit := false |}
         [datumExpr (H := Fixture2.utcOnly) (DInt 2)]
       = Ok s.
Proof.
  split.
  - eexists. split.
    + reflexivity.
    + destruct (proj1 (X16_time_zone_converter_errors (H := Fixture2.utcOnly)
                         {| TxnImplicit := false |}
                         (Fixture.literal "Mars/Olympus")
                         (DString "Mars/Olympus") eq_refl)
                  _ eq_refl) as (Hcode & _ & Htext).
      split; [exact Hcode|exact Htext].
  - apply (proj2 (X16_time_zone_converter_errors (H := Fixture2.utcOnly)
                    {| TxnImplicit := false |}
                    (datumExpr (H := Fixture2.utcOnly) (DInt 2))
                    (DInt 2) eq_refl)).
    left. exists 2. reflexivity.
Defined.

(** 2^62 hours: the integer wraps around to 0 seconds, the decimal of the
    same value is refused; 5 hours are 18000 seconds either way. *)
Lemma X17_witness_two_to_the_62 :
  timeZoneSwitch (H := Fixture.engine) (Fixture.literal "x") (DInt (2 ^ 62))
  = Ok (None, 0)
  /\ (exists sixty,
         timeZoneSwitch (H := Fixture.engine) (Fixture.literal "x")
           (DDecimal (apdNew (2 ^ 62) 0))
         = Err (wrapSetVarError "timezone" "'x'"
                  "time zone value %s would overflow an int64"
                  [ArgDecimal sixty]))
  /\ timeZoneSwitch (H := Fixture.engine) (Fixture.literal "x")
       (DDecimal (apdNew 5 0))
     = Ok (None, 18000).
Proof.
  pose proof (X17_integer_wraps_decimal_refuses (H := Fixture.engine)
                (Fixture.literal "x") (2 ^ 62)) as [_ Hout].
  destruct (Hout eq_refl) as ((wrapped & Hint & _) & Hdec).
  split; [|split].
  - reflexivity.
  - exact Hdec.
  - exact (proj2 (proj1 (X17_integer_wraps_decimal_refuses
                           (H := Fixture.engine) (Fixture.literal "x") 5)
                    eq_refl)).
Defined.

(** An interval of 1.5 seconds gives the offset 1, one of -1.5 seconds the
    offset -1. *)
Lemma X18_witness_one_and_a_half_seconds :
  timeZoneSwitch (H := Fixture.engine) (Fixture.literal "x")
    (DInterval (subDay 1500000000)) = Ok (None, 1)
  /\ timeZoneSwitch (H := Fixture.engine) (Fixture.literal "x")
       (DInterval (subDay (- 1500000000))) = Ok (None, - 1).
Proof.
  destruct (X18_negated_interval_negated_offset (H := Fixture.engine)
              (Fixture.literal "x") (subDay 1500000000) eq_refl eq_refl)
    as (offset & Hpos & Hneg & _).
  assert (Hone : timeZoneSwitch (H := Fixture.engine) (Fixture.literal "x")
                   (DInterval (subDay 1500000000)) = Ok (None, 1))
    by reflexivity.
  rewrite Hone in Hpos. injection Hpos as <-.
  split; [exact Hone|exact Hneg].
Defined.

(** 5 and 5.0 and 5.00 hours are 18000 seconds. *)
Lemma X19_witness_five_point_zero :
  timeZoneSwitch (H := Fixture.engine) (Fixture.literal "x")
    (DDecimal (apdNew 50 (-1))) = Ok (None, 18000)
  /\ timeZoneSwitch (H := Fixture.engine) (Fixture.literal "x")
       (DDecimal (apdNew 500 (-2))) = Ok (None, 18000).
Proof.
  assert (Hfive : timeZoneSwitch (H := Fixture.engine) (Fixture.literal "x")
                    (DDecimal (apdNew 5 0)) = Ok (None, 18000))
    by reflexivity.
  pose proof (proj2 (X19_trailing_zero_same_offset (H := Fixture.engine)
                       (Fixture.literal "x") (apdNew 5 0) 18000) Hfive)
    as Hfifty.
  split; [exact Hfifty|].
  exact (proj2 (X19_trailing_zero_same_offset (H := Fixture.engine)
                  (Fixture.literal "x") (apdNew 50 (-1)) 18000) Hfifty).
Defined.

(** SET timezone = 'Europe/Paris' on two levels: both get the zone, and
    their lock timeouts stay 1 and 2. *)
Lemma X20_witness_europe_paris :
  exists n' p',
    startExec (H := Fixture.engine) Fixture2.setTimeZone Fixture.twoLevels
    = Some (n', p', None,
            [CallSet "Europe/Paris"; CallSet "Europe/Paris"])
    /\ map SDLocation (sds (mutatorIterator p'))
       = [NamedZone "Europe/Paris"; NamedZone "Europe/Paris"]
    /\ map LockTimeout (sds (mutatorIterator p')) = [1; 2].
Proof.
  destruct (X20_set_time_zone_end_to_end (H := Fixture.engine)
              Fixture2.setTimeZone Fixture.twoLevels
              (Fixture.literal "Europe/Paris") (DString "Europe/Paris")
              "Europe/Paris" (NamedZone "Europe/Paris")
              eq_refl eq_refl eq_refl eq_refl eq_refl eq_refl eq_refl
              eq_refl eq_refl)
    as (p' & Hexec & Hsds & _).
  eexists. exists p'. split; [exact Hexec|].
  rewrite Hsds. split; reflexivity.
Defined.

(** The integer 5000 and the interval of 5000 milliseconds both read 5s. *)
Lemma X21_witness_five_thousand :
  makeTimeoutVarGetter (H := Fixture.engine) "statement_timeout"
    {| TxnImplicit := false |} [datumExpr (H := Fixture.engine) (DInt 5000)]
  = Ok "5s"
  /\ makeTimeoutVarGetter (H := Fixture.engine) "statement_timeout"
       {| TxnImplicit := false |}
       [datumExpr (H := Fixture.engine)
          (DInterval (subDay (5000 * Millisecond)))]
     = Ok "5s".
Proof.
  exact (proj1 (X21_integer_is_milliseconds (H := Fixture.engine)
                  "statement_timeout" {| TxnImplicit := false |} 5000)
           eq_refl).
Defined.
